(** * Extension-backend: the video-to-Drive request handler ([main.py])

    A shallow embedding of [main.py]: the Flask handler [video_to_drive],
    the credential store [get_gdrive_service] and the folder resolver
    [get_or_create_folder], run against an explicit model of the world they
    act on (local disk, token cache, process environment, Drive account,
    clock) and of the collaborators they call (yt-dlp, the OAuth client, the
    Drive API).

    Conventions of the model:
    - a Python [str] is a [string] of its UTF-8 bytes; paths use [/];
    - the view starts from the value [request.get_json()] returned;
    - a computation is a function from the world to a result, an exception
      or a value, and the next world; every call that leaves the process is
      recorded in the world's [trace];
    - [print] calls are left out, and so is the closing of the upload's file
      handles (lines 121-128), whose errors the code drops;
    - token.pickle always unpickles and can always be rewritten; a resumable
      upload ends after finitely many chunks, by completing or by raising. *)

From Stdlib Require Import ZArith List Bool Lia Ascii String.
From Stdlib Require Import Floats.SpecFloat.
From stdpp Require Import base option list strings gmap.

Open Scope string_scope.

(** ** Python strings *)

Module PyString.

(** [s.endswith(suffix)]: some tail of [s] is [suffix]. *)
Fixpoint endswith (s suffix : string) : bool :=
  if String.eqb s suffix then true
  else match s with
       | EmptyString => false
       | String _ r => endswith r suffix
       end.

(** [s.rsplit(sep, 1)] for a one-character [sep]: [Some (head, tail)] when
    [sep] occurs in [s], split at its last occurrence; [None] when it does
    not occur (Python then returns the one-element list [[s]]). *)
Fixpoint rsplit1 (sep : ascii) (s : string) : option (string * string) :=
  match s with
  | EmptyString => None
  | String c r =>
      match rsplit1 sep r with
      | Some (h, t) => Some (String c h, t)
      | None => if Ascii.eqb c sep then Some (EmptyString, r) else None
      end
  end.

(** [s.rsplit(sep, 1)[0]]. *)
Definition rsplit1_head (sep : ascii) (s : string) : string :=
  match rsplit1 sep s with
  | Some (h, _) => h
  | None => s
  end.

(** [c in s]. *)
Fixpoint contains (c : ascii) (s : string) : bool :=
  match s with
  | EmptyString => false
  | String d r => Ascii.eqb d c || contains c r
  end.

(** [s[i:]] where [i = s.rfind(sep) + 1]: the part after the last [sep],
    the whole string when there is none. *)
Definition after_last (sep : ascii) (s : string) : string :=
  match rsplit1 sep s with
  | Some (_, t) => t
  | None => s
  end.

End PyString.

(** [posixpath.basename(p)]: [i = p.rfind('/') + 1; return p[i:]]. *)
Definition basename (p : string) : string := PyString.after_last "/" p.

(** Lines 90-91 of [video_to_drive]:
    [if not filename.endswith(".mp4"): filename = filename.rsplit(".", 1)[0] + ".mp4"]. *)
Definition normalize_filename (filename : string) : string :=
  if negb (PyString.endswith filename ".mp4")
  then PyString.rsplit1_head "." filename +:+ ".mp4"
  else filename.

(** ** Python values and exceptions *)

(** What [request.get_json()] can hand to the view: [None], a bool, a
    number, a string, a list or a dict.  A dict is kept as its items in
    insertion order; a later item for the same key overrides an earlier one. *)
#[warnings="-register-all"] Inductive PyVal : Type :=
| PyNone
| PyBool (b : bool)
| PyInt (z : Z)
| PyFloat (f : spec_float)
| PyStr (s : string)
| PyList (l : list PyVal)
| PyDict (d : list (string * PyVal)).

(** Python truth value, as used by [if not url]. *)
Definition truthy (v : PyVal) : bool :=
  match v with
  | PyNone => false
  | PyBool b => b
  | PyInt z => negb (Z.eqb z 0)
  | PyFloat (S754_zero _) => false
  | PyFloat _ => true
  | PyStr s => negb (String.eqb s EmptyString)
  | PyList l => match l with [] => false | _ => true end
  | PyDict d => match d with [] => false | _ => true end
  end.

Fixpoint dict_lookup (d : list (string * PyVal)) (k : string) : option PyVal :=
  match d with
  | [] => None
  | (k', v) :: r =>
      match dict_lookup r k with
      | Some v' => Some v'
      | None => if String.eqb k' k then Some v else None
      end
  end.

Inductive ExcClass : Type :=
| AttributeError
| FileNotFoundError
| PermissionError
| HttpError
| RefreshError
| DownloadError
| ValueError
| Exception.

(** An exception object: its class and [str(e)]. *)
Record Exc : Type := mkExc { exc_class : ExcClass; exc_str : string }.

Definition type_name (v : PyVal) : string :=
  match v with
  | PyNone => "NoneType"
  | PyBool _ => "bool"
  | PyInt _ => "int"
  | PyFloat _ => "float"
  | PyStr _ => "str"
  | PyList _ => "list"
  | PyDict _ => "dict"
  end.

(** [data.get(key)]: only a dict has a [get] attribute. *)
Definition py_get (data : PyVal) (key : string) : Exc + PyVal :=
  match data with
  | PyDict d => inr (default PyNone (dict_lookup d key))
  | _ => inl (mkExc AttributeError
                ("'" +:+ type_name data +:+ "' object has no attribute 'get'"))
  end.

Definition is_dict (v : PyVal) : bool :=
  match v with PyDict _ => true | _ => false end.

(** ** The world the service acts on *)

(** [google.oauth2.credentials.Credentials], as far as [main.py] reads it.
    [valid] is the library's property: a token is present and not expired. *)
Record Credentials : Type := mkCreds {
  token : option string;
  expired : bool;
  refresh_token : option string
}.

Definition valid (c : Credentials) : bool :=
  match token c with Some _ => negb (expired c) | None => false end.

(** Truth value of [creds.refresh_token] ([None] and the empty string are false). *)
Definition str_truthy (o : option string) : bool :=
  match o with Some s => negb (String.eqb s EmptyString) | None => false end.

(** An object of the Drive account. *)
Record DriveFile : Type := mkDriveFile {
  df_id : string;
  df_name : string;
  df_mimeType : string;
  df_trashed : bool;
  df_parents : list string;
  df_anyone_reader : bool
}.

(** Calls that leave the process, in the order they are made. *)
Inductive Event : Type :=
| EvExtractInfo (url : PyVal)
| EvRefresh
| EvGetenv
| EvRunLocalServer
| EvTokenDump
| EvFilesList (q : string)
| EvFolderCreate (name : string)
| EvMediaOpen (path : string)
| EvNextChunk
| EvPermissionsCreate (file_id : string)
| EvRemove (path : string)
| EvSleep (seconds : nat).

Record World : Type := mkWorld {
  disk : gset string;              (* paths present under the working directory,
                                      token.pickle apart *)
  lock_until : gmap string nat;    (* path -> time until which another handle holds it *)
  now : nat;                       (* clock, in the units of [time.sleep] *)
  token_pickle : option Credentials;     (* contents of token.pickle, if it exists *)
  GOOGLE_CREDENTIALS : option string;    (* os.getenv("GOOGLE_CREDENTIALS") *)
  drive : list DriveFile;          (* the account, in the provider's listing order *)
  trace : list Event
}.

Definition set_disk (d : gset string) (w : World) : World :=
  mkWorld d (lock_until w) (now w) (token_pickle w) (GOOGLE_CREDENTIALS w) (drive w) (trace w).
Definition set_now (t : nat) (w : World) : World :=
  mkWorld (disk w) (lock_until w) t (token_pickle w) (GOOGLE_CREDENTIALS w) (drive w) (trace w).
Definition set_token_pickle (c : option Credentials) (w : World) : World :=
  mkWorld (disk w) (lock_until w) (now w) c (GOOGLE_CREDENTIALS w) (drive w) (trace w).
Definition set_drive (d : list DriveFile) (w : World) : World :=
  mkWorld (disk w) (lock_until w) (now w) (token_pickle w) (GOOGLE_CREDENTIALS w) d (trace w).
Definition record (e : Event) (w : World) : World :=
  mkWorld (disk w) (lock_until w) (now w) (token_pickle w) (GOOGLE_CREDENTIALS w) (drive w)
          (trace w ++ [e]).

(** The [InstalledAppFlow] built from a client configuration and scopes. *)
Record Flow : Type := mkFlow {
  flow_client_config : PyVal;
  flow_scopes : list string
}.

(** How the collaborators answer.  Each field stands for library or remote
    code that [main.py] only calls. *)
Record Externals : Type := mkExternals {
  (* yt-dlp: [extract_info(url, download=True)] then [prepare_filename(info)]
     under the given output template: the files it leaves on disk, and either
     the exception raised or the file name computed *)
  ydl_run : string -> PyVal -> gset string * (Exc + string);
  (* [creds.refresh(Request())] *)
  oauth_refresh : Credentials -> Exc + Credentials;
  (* [json.loads(creds_json)] *)
  json_loads : string -> Exc + PyVal;
  (* [InstalledAppFlow.from_client_config(creds_dict, SCOPES)] *)
  from_client_config : PyVal -> list string -> Exc + Flow;
  (* [flow.run_local_server(port=0)] *)
  run_local_server : Flow -> Exc + Credentials;
  (* the identifier the provider gives to the next created object *)
  new_id : list DriveFile -> string;
  (* transport or server failures of the Drive calls *)
  list_fault : option Exc;
  folder_create_fault : option Exc;
  (* the resumable upload: progress reports before the last chunk, and
     whether the last [next_chunk] raises instead of completing *)
  upload_chunks : nat;
  upload_fault : option Exc;
  permission_fault : option Exc
}.

(** ** Computations: state and exceptions *)

Definition M (A : Type) : Type := World -> (Exc + A) * World.

Definition ret {A} (a : A) : M A := fun w => (inr a, w).
Definition raise {A} (e : Exc) : M A := fun w => (inl e, w).
Definition bind {A B} (m : M A) (k : A -> M B) : M B :=
  fun w => match m w with
           | (inr a, w') => k a w'
           | (inl e, w') => (inl e, w')
           end.
(** [try: m except Exception as e: h e]. *)
Definition try_except {A} (m : M A) (h : Exc -> M A) : M A :=
  fun w => match m w with
           | (inr a, w') => (inr a, w')
           | (inl e, w') => h e w'
           end.
(** [try: m except PermissionError: h]. *)
Definition try_except_PermissionError {A} (m : M A) (h : M A) : M A :=
  fun w => match m w with
           | (inl (mkExc PermissionError _), w') => h w'
           | r => r
           end.
Definition lift {A} (r : Exc + A) : M A := fun w => (r, w).
Definition emit (e : Event) : M unit := fun w => (inr tt, record e w).
Definition gets {A} (f : World -> A) : M A := fun w => (inr (f w), w).
Definition modify (f : World -> World) : M unit := fun w => (inr tt, f w).

Notation "'let*' x ':=' m 'in' k" := (bind m (fun x => k))
  (at level 10, x pattern, m at level 100, k at level 200).
Notation "m ';;' k" := (bind m (fun _ => k))
  (at level 100, k at level 200, right associativity).

(** ** Local operating system *)

Definition os_path_exists (path : string) : M bool :=
  gets (fun w => bool_decide (path ∈ disk w)).

Definition is_locked (w : World) (path : string) : bool :=
  match lock_until w !! path with
  | Some t => Nat.ltb (now w) t
  | None => false
  end.

Definition no_such_file (path : string) : Exc :=
  mkExc FileNotFoundError ("[Errno 2] No such file or directory: '" +:+ path +:+ "'").

Definition file_in_use (path : string) : Exc :=
  mkExc PermissionError
    ("[WinError 32] The process cannot access the file because it is being used by another process: '"
     +:+ path +:+ "'").

(** [os.remove(path)]: [FileNotFoundError] when the path is absent,
    [PermissionError] while another handle holds the file. *)
Definition os_remove (path : string) : M unit :=
  emit (EvRemove path);;
  let* w := gets id in
  if negb (bool_decide (path ∈ disk w)) then raise (no_such_file path)
  else if is_locked w path then raise (file_in_use path)
  else modify (fun w => set_disk (disk w ∖ {[path]}) w).

Definition time_sleep (seconds : nat) : M unit :=
  emit (EvSleep seconds);;
  modify (fun w => set_now (now w + seconds) w).

(** ** The Drive provider *)

Module DriveQuery.

(** The search the provider runs for a [q] of the shape this service sends:
    [name='..' and mimeType='..' and trashed=..]. *)
Record Query : Type := mkQuery {
  q_name : string;
  q_mimeType : string;
  q_trashed : bool
}.

Fixpoint strip_prefix (p s : string) : option string :=
  match p, s with
  | EmptyString, _ => Some s
  | String a p', String b s' => if Ascii.eqb a b then strip_prefix p' s' else None
  | String _ _, EmptyString => None
  end.

(** A quoted value, read after its opening quote: the value and what follows
    the closing quote.  A quote or backslash inside the value is written with
    a backslash before it. *)
Fixpoint read_literal (s : string) : option (string * string) :=
  match s with
  | EmptyString => None
  | String c r =>
      if Ascii.eqb c "'" then Some (EmptyString, r)
      else if Ascii.eqb c "\" then
        match r with
        | String d r' =>
            if Ascii.eqb d "'" || Ascii.eqb d "\" then
              match read_literal r' with
              | Some (v, rest) => Some (String d v, rest)
              | None => None
              end
            else None
        | EmptyString => None
        end
      else
        match read_literal r with
        | Some (v, rest) => Some (String c v, rest)
        | None => None
        end
  end.

Definition parse_bool (s : string) : option bool :=
  if String.eqb s "true" then Some true
  else if String.eqb s "false" then Some false
  else None.

Definition parse (q : string) : option Query :=
  r1 ← strip_prefix "name='" q;
  '(n, r2) ← read_literal r1;
  r3 ← strip_prefix " and mimeType='" r2;
  '(m, r4) ← read_literal r3;
  r5 ← strip_prefix " and trashed=" r4;
  b ← parse_bool r5;
  Some (mkQuery n m b).

Definition matches (q : Query) (f : DriveFile) : bool :=
  String.eqb (df_name f) (q_name q)
  && String.eqb (df_mimeType f) (q_mimeType q)
  && Bool.eqb (df_trashed f) (q_trashed q).

End DriveQuery.

(** The handle returned by [build("drive", "v3", credentials=creds)]. *)
Record DriveService : Type := mkService { svc_credentials : option Credentials }.

Definition folder_mimeType : string := "application/vnd.google-apps.folder".

(** The [webViewLink] field of a created file. *)
Definition webViewLink (file_id : string) : string :=
  "https://drive.google.com/file/d/" +:+ file_id +:+ "/view?usp=drivesdk".

(** The fields [main.py] reads from the upload's final response. *)
Record UploadResponse : Type := mkUploadResponse {
  resp_id : string;
  resp_webViewLink : string
}.

(** A Flask response: status code and the JSON object given to [jsonify]. *)
Record Response : Type := mkResponse {
  status : nat;
  body : list (string * PyVal)
}.

(** [jsonify({"error": msg}), code]. *)
Definition jsonify_error (code : nat) (msg : string) : Response :=
  mkResponse code [("error", PyStr msg)].

(** Lines 146-151; [jsonify] alone answers 200. *)
Definition jsonify_success (filename : string) (response : UploadResponse) : Response :=
  mkResponse 200
    [("message", PyStr "✅ Video downloaded & uploaded to Google Drive");
     ("file_id", PyStr (resp_id response));
     ("file_name", PyStr (basename filename));
     ("public_link", PyStr (resp_webViewLink response))].

Definition DOWNLOAD_DIR : string := "downloads".

Definition SCOPES : list string := ["https://www.googleapis.com/auth/drive.file"].

(** Line 57. *)
Definition folder_query (folder_name : string) : string :=
  "name='" +:+ folder_name
  +:+ "' and mimeType='application/vnd.google-apps.folder' and trashed=false".

Definition missing_credentials : Exc :=
  mkExc Exception "❌ GOOGLE_CREDENTIALS not found in environment variables".

(** [posixpath.join(a, b)] for a relative [b] and a non-empty [a] without
    trailing slash. *)
Definition os_path_join (a b : string) : string := a +:+ "/" +:+ b.

Section Service.

Variable ext : Externals.

(** [service.files().list(q=query, fields="files(id, name)").execute()],
    then [results.get("files", [])].  The model answers the query shape of
    line 57 and raises for any other text; no statement depends on what the
    provider does with such a text. *)
Definition files_list (service : DriveService) (q : string) : M (list DriveFile) :=
  emit (EvFilesList q);;
  match list_fault ext with
  | Some e => raise e
  | None =>
      match DriveQuery.parse q with
      | None => raise (mkExc HttpError "<HttpError 400 Invalid Value>")
      | Some query =>
          let* files := gets drive in
          ret (filter (fun f => Is_true (DriveQuery.matches query f)) files)
      end
  end.

(** [service.files().create(body={"name": .., "mimeType": folder}, fields="id").execute()]. *)
Definition files_create_folder (service : DriveService) (name : string) : M DriveFile :=
  emit (EvFolderCreate name);;
  match folder_create_fault ext with
  | Some e => raise e
  | None =>
      let* files := gets drive in
      let folder := mkDriveFile (new_id ext files) name folder_mimeType false [] false in
      modify (set_drive (files ++ [folder]));;
      ret folder
  end.

(** Lines 55-66. *)
Definition get_or_create_folder (service : DriveService) (folder_name : string) : M string :=
  let query := folder_query folder_name in
  let* files := files_list service query in
  match files with
  | f :: _ => ret (df_id f)
  | [] =>
      let* folder := files_create_folder service folder_name in
      ret (df_id folder)
  end.

(** ** Credential store *)

(** [with open("token.pickle", "wb") as token: pickle.dump(creds, token)]. *)
Definition dump_token (creds : option Credentials) : M unit :=
  emit EvTokenDump;;
  modify (set_token_pickle creds).

Definition refresh (c : Credentials) : M Credentials :=
  emit EvRefresh;;
  lift (oauth_refresh ext c).

Definition os_getenv_GOOGLE_CREDENTIALS : M (option string) :=
  emit EvGetenv;;
  gets GOOGLE_CREDENTIALS.

(** Lines 43-47: the local server is started only once the configuration
    was parsed and accepted. *)
Definition run_flow (creds_json : string) : M Credentials :=
  let* creds_dict := lift (json_loads ext creds_json) in
  let* flow := lift (from_client_config ext creds_dict SCOPES) in
  emit EvRunLocalServer;;
  lift (run_local_server ext flow).

(** Lines 39-47: the [else] branch of the credential store. *)
Definition acquire : M Credentials :=
  let* creds_json := os_getenv_GOOGLE_CREDENTIALS in
  if negb (str_truthy creds_json) then
    raise missing_credentials
  else run_flow (default EmptyString creds_json).

(** [creds and creds.valid]. *)
Definition cached_valid (creds : option Credentials) : bool :=
  match creds with Some c => valid c | None => false end.

(** Lines 27-53.  [creds] is [None] or the credentials object read from
    token.pickle when that file exists; [not creds or not creds.valid] is
    [not (creds and creds.valid)]. *)
Definition get_gdrive_service : M DriveService :=
  let* creds := gets token_pickle in
  if negb (cached_valid creds) then
    let* creds :=
      match creds with
      | Some c =>
          if expired c && str_truthy (refresh_token c) then refresh c
          else acquire
      | None => acquire
      end in
    dump_token (Some creds);;
    ret (mkService (Some creds))
  else ret (mkService creds).

(** ** Upload *)

(** [MediaFileUpload(filename, mimetype="video/mp4", resumable=True)] opens
    the file for reading. *)
Definition MediaFileUpload (filename : string) : M unit :=
  emit (EvMediaOpen filename);;
  let* present := os_path_exists filename in
  if present then ret tt else raise (no_such_file filename).

(** The last [request_upload.next_chunk()]: the object now exists in the
    account, named and placed as [file_metadata] says. *)
Definition last_chunk (name : string) (parents : list string) : M UploadResponse :=
  emit EvNextChunk;;
  match upload_fault ext with
  | Some e => raise e
  | None =>
      let* files := gets drive in
      let file_id := new_id ext files in
      modify (set_drive (files ++ [mkDriveFile file_id name "video/mp4" false parents false]));;
      ret (mkUploadResponse file_id (webViewLink file_id))
  end.

(** Lines 113-117: [while response is None: status, response = next_chunk()].
    [n] is the number of chunks answered with a progress status only. *)
Fixpoint next_chunks (n : nat) (name : string) (parents : list string) : M UploadResponse :=
  match n with
  | O => last_chunk name parents
  | S k => emit EvNextChunk;; next_chunks k name parents
  end.

(** [service.permissions().create(fileId=.., body={"role": "reader", "type": "anyone"}).execute()]. *)
Definition permissions_create (service : DriveService) (file_id : string) : M unit :=
  emit (EvPermissionsCreate file_id);;
  match permission_fault ext with
  | Some e => raise e
  | None =>
      modify (fun w =>
        set_drive
          (map (fun f => if String.eqb (df_id f) file_id
                         then mkDriveFile (df_id f) (df_name f) (df_mimeType f)
                                          (df_trashed f) (df_parents f) true
                         else f) (drive w)) w)
  end.

(** ** The request handler *)

(** Lines 87-91. *)
Definition download (outtmpl : string) (url : PyVal) : M string :=
  emit (EvExtractInfo url);;
  let '(written, outcome) := ydl_run ext outtmpl url in
  modify (fun w => set_disk (disk w ∪ written) w);;
  let* filename := lift outcome in
  ret (normalize_filename filename).

(** Lines 137-144. *)
Definition cleanup (filename : string) : M unit :=
  try_except_PermissionError
    (let* present := os_path_exists filename in
     if present then os_remove filename else ret tt)
    (time_sleep 2;;
     os_remove filename).

(** Lines 96-134: authenticate, resolve the folder, upload, make public. *)
Definition upload_to_drive (filename : string) : M UploadResponse :=
  let* service := get_gdrive_service in
  let* folder_id := get_or_create_folder service "YouTubeSong" in
  MediaFileUpload filename;;
  let* response := next_chunks (upload_chunks ext) (basename filename) [folder_id] in
  (* lines 121-128 close the handles that [media] holds; an error there is
     printed and dropped *)
  permissions_create service (resp_id response);;
  ret response.

(** Lines 86-151: the body of the [try]. *)
Definition try_body (outtmpl : string) (url : PyVal) : M Response :=
  let* filename := download outtmpl url in
  let* present := os_path_exists filename in
  if negb present then
    ret (jsonify_error 500 "File not found after download")
  else
    let* response := upload_to_drive filename in
    cleanup filename;;
    ret (jsonify_success filename response).

(** [video_to_drive], given what [request.get_json()] returned; the
    [except Exception] of lines 153-154 wraps the body of the [try] only.
    [inl e] is an exception that leaves the view function.  The [print] of
    line 73 is taken to succeed (standard output accepts the text of the
    url), so the runs described are those that get past that line. *)
Definition video_to_drive (data : PyVal) : M Response :=
  let* url := lift (py_get data "url") in
  if negb (truthy url) then
    ret (jsonify_error 400 "❌ YouTube URL required")
  else
    let outtmpl := os_path_join DOWNLOAD_DIR "%(title)s.%(ext)s" in
    try_except (try_body outtmpl url)
      (fun e => ret (jsonify_error 500 (exc_str e))).

End Service.

(** [home]: the banner served at [/]. *)
Definition home : M Response :=
  ret (mkResponse 200 [("message", PyStr "🎬 YouTube → Google Drive API running")]).

(** ** Vocabulary of the statements *)

Definition outtmpl : string := os_path_join DOWNLOAD_DIR "%(title)s.%(ext)s".

(** The world once the tool has run and left [written] on disk. *)
Definition after_download (url : PyVal) (written : gset string) (w : World) : World :=
  set_disk (disk w ∪ written) (record (EvExtractInfo url) w).

(** [n] chunk requests recorded. *)
Fixpoint chunks_recorded (n : nat) (w : World) : World :=
  match n with
  | O => w
  | S k => chunks_recorded k (record EvNextChunk w)
  end.

(** The object that the upload of [filename] into [folder_id] creates in the
    account of [w]. *)
Definition remote_object (ext : Externals) (filename folder_id : string) (w : World)
  : DriveFile :=
  mkDriveFile (new_id ext (drive w)) (basename filename) "video/mp4" false [folder_id] false.

(** The world once the file was opened and all its chunks were sent. *)
Definition uploaded (ext : Externals) (filename folder_id : string) (w : World) : World :=
  set_drive (drive w ++ [remote_object ext filename folder_id w])
    (record EvNextChunk
       (chunks_recorded (upload_chunks ext) (record (EvMediaOpen filename) w))).

(** The local side of the world is the same in [w] and [w']. *)
Definition same_local (w w' : World) : Prop :=
  disk w' = disk w /\ lock_until w' = lock_until w /\ now w' = now w.

(** Every run of [m] leaves the local side as it found it. *)
Definition keeps_local {A} (m : M A) : Prop :=
  forall w r w', m w = (r, w') -> same_local w w'.

(** The world after a refused deletion, the two-unit wait and the second
    deletion request for [path]. *)
Definition after_retry (path : string) (w : World) : World :=
  record (EvRemove path)
    (set_now (now w + 2) (record (EvSleep 2) (record (EvRemove path) w))).

(** [creds and creds.expired and creds.refresh_token]. *)
Definition refreshable (creds : option Credentials) : bool :=
  match creds with
  | Some c => expired c && str_truthy (refresh_token c)
  | None => false
  end.

(** A folder name that needs no escaping inside a quoted value. *)
Definition plain_name (name : string) : bool :=
  negb (PyString.contains "'" name) && negb (PyString.contains "\" name).

(** The non-trashed folders called [name], in listing order. *)
Definition folders_named (name : string) (files : list DriveFile) : list DriveFile :=
  filter (fun f => Is_true (DriveQuery.matches (DriveQuery.mkQuery name folder_mimeType false) f))
         files.

(** Every run of [m] relates the world it starts in to the one it ends in
    by [R]. *)
Definition preserves (R : World -> World -> Prop) {A} (m : M A) : Prop :=
  forall w r w', m w = (r, w') -> R w w'.

(** The Drive account is the same. *)
Definition same_drive (w w' : World) : Prop := drive w' = drive w.

(** What identifies and places a Drive object: all its fields but the
    public grant. *)
Definition df_core (f : DriveFile) : string * string * string * bool * list string :=
  (df_id f, df_name f, df_mimeType f, df_trashed f, df_parents f).

(** The account of [w'] is the account of [w], object by object and in the
    same order, with at most new objects after it and public grants added. *)
Definition drive_grows (w w' : World) : Prop :=
  exists added, map df_core (drive w') = (map df_core (drive w) ++ added)%list.

(** The trace of [w'] continues the trace of [w]. *)
Definition trace_extends (w w' : World) : Prop :=
  exists events, trace w' = (trace w ++ events)%list.

(** The paths a run of the handler can take, with the answer and the final
    world of each. *)
Inductive Run (ext : Externals) (data : PyVal) (w : World)
  : Exc + Response -> World -> Prop :=
| run_not_object :
    is_dict data = false ->
    Run ext data w
      (inl (mkExc AttributeError
              ("'" +:+ type_name data +:+ "' object has no attribute 'get'"))) w
| run_rejected url :
    py_get data "url" = inr url -> truthy url = false ->
    Run ext data w (inr (jsonify_error 400 "❌ YouTube URL required")) w
| run_tool_raised url written e :
    py_get data "url" = inr url -> truthy url = true ->
    ydl_run ext outtmpl url = (written, inl e) ->
    Run ext data w (inr (jsonify_error 500 (exc_str e))) (after_download url written w)
| run_file_missing url written prepared :
    py_get data "url" = inr url -> truthy url = true ->
    ydl_run ext outtmpl url = (written, inr prepared) ->
    normalize_filename prepared ∉ disk w ∪ written ->
    Run ext data w (inr (jsonify_error 500 "File not found after download"))
      (after_download url written w)
| run_upload_raised url written prepared e w2 :
    py_get data "url" = inr url -> truthy url = true ->
    ydl_run ext outtmpl url = (written, inr prepared) ->
    normalize_filename prepared ∈ disk w ∪ written ->
    upload_to_drive ext (normalize_filename prepared) (after_download url written w)
    = (inl e, w2) ->
    Run ext data w (inr (jsonify_error 500 (exc_str e))) w2
| run_cleanup_raised url written prepared response w2 e w3 :
    py_get data "url" = inr url -> truthy url = true ->
    ydl_run ext outtmpl url = (written, inr prepared) ->
    normalize_filename prepared ∈ disk w ∪ written ->
    upload_to_drive ext (normalize_filename prepared) (after_download url written w)
    = (inr response, w2) ->
    cleanup (normalize_filename prepared) w2 = (inl e, w3) ->
    Run ext data w (inr (jsonify_error 500 (exc_str e))) w3
| run_done url written prepared response w2 w3 :
    py_get data "url" = inr url -> truthy url = true ->
    ydl_run ext outtmpl url = (written, inr prepared) ->
    normalize_filename prepared ∈ disk w ∪ written ->
    upload_to_drive ext (normalize_filename prepared) (after_download url written w)
    = (inr response, w2) ->
    cleanup (normalize_filename prepared) w2 = (inr tt, w3) ->
    Run ext data w (inr (jsonify_success (normalize_filename prepared) response)) w3.

(** The object [f] with the public grant. *)
Definition made_public (f : DriveFile) : DriveFile :=
  mkDriveFile (df_id f) (df_name f) (df_mimeType f) (df_trashed f) (df_parents f) true.

(** ** Concrete scenarios *)

Module Scenario.

Definition song_url : PyVal := PyStr "https://example.com/watch?v=abc".
Definition request : PyVal := PyDict [("url", song_url)].
Definition song_path : string := "downloads/abc.mp4".

Definition creds_fresh : Credentials := mkCreds (Some "ya29.fresh") false (Some "1//refresh").
Definition creds_stale : Credentials := mkCreds (Some "ya29.stale") true (Some "1//refresh").
Definition creds_dead : Credentials := mkCreds (Some "ya29.dead") true None.

(** Identifiers [f], [ff], [fff], ...: one letter longer per object. *)
Definition nth_id (files : list DriveFile) : string :=
  String.concat EmptyString (repeat "f" (S (length files))).

Definition http_503 : Exc := mkExc HttpError "<HttpError 503 Service Unavailable>".
Definition http_403 : Exc := mkExc HttpError "<HttpError 403 Forbidden>".
Definition invalid_grant : Exc := mkExc RefreshError "invalid_grant: Token has been expired or revoked.".

(** A tool that writes [downloads/abc.mp4] and reports that name. *)
Definition tool_mp4 (outtmpl : string) (url : PyVal) : gset string * (Exc + string) :=
  ({[song_path]}, inr song_path).
(** A tool that writes [downloads/abc.webm] and reports that name. *)
Definition tool_webm (outtmpl : string) (url : PyVal) : gset string * (Exc + string) :=
  ({["downloads/abc.webm"]}, inr "downloads/abc.webm").

Definition refresh_ok (c : Credentials) : Exc + Credentials :=
  inr (mkCreds (Some "ya29.renewed") false (refresh_token c)).
Definition refresh_ko (c : Credentials) : Exc + Credentials := inl invalid_grant.
(** The text of a client configuration for an installed application, and
    what [json.loads] makes of it. *)
Definition dq : string := String (Ascii.ascii_of_nat 34) EmptyString.
Definition client_config : string :=
  "{" +:+ dq +:+ "installed" +:+ dq +:+ ": {"
      +:+ dq +:+ "client_id" +:+ dq +:+ ": " +:+ dq +:+ "1234.apps.googleusercontent.com" +:+ dq
      +:+ ", " +:+ dq +:+ "client_secret" +:+ dq +:+ ": " +:+ dq +:+ "s3cr3t" +:+ dq
      +:+ ", " +:+ dq +:+ "auth_uri" +:+ dq +:+ ": "
      +:+ dq +:+ "https://accounts.google.com/o/oauth2/auth" +:+ dq
      +:+ ", " +:+ dq +:+ "token_uri" +:+ dq +:+ ": "
      +:+ dq +:+ "https://oauth2.googleapis.com/token" +:+ dq
      +:+ ", " +:+ dq +:+ "redirect_uris" +:+ dq +:+ ": [" +:+ dq +:+ "http://localhost" +:+ dq
      +:+ "]}}".
Definition client_dict : PyVal :=
  PyDict [("installed",
           PyDict [("client_id", PyStr "1234.apps.googleusercontent.com");
                   ("client_secret", PyStr "s3cr3t");
                   ("auth_uri", PyStr "https://accounts.google.com/o/oauth2/auth");
                   ("token_uri", PyStr "https://oauth2.googleapis.com/token");
                   ("redirect_uris", PyList [PyStr "http://localhost"])])].

Definition not_json : Exc :=
  mkExc ValueError "Expecting value: line 1 column 1 (char 0)".
Definition not_a_client_config : Exc :=
  mkExc ValueError "Client secrets must be for a web or installed app.".

(** A reader that knows the two texts used here: the client configuration
    above and the empty object. *)
Definition loads (creds_json : string) : Exc + PyVal :=
  if String.eqb creds_json client_config then inr client_dict
  else if String.eqb creds_json "{}" then inr (PyDict [])
  else inl not_json.
(** The library accepts a configuration with an [installed] or [web] entry. *)
Definition flow_of (creds_dict : PyVal) (scopes : list string) : Exc + Flow :=
  match creds_dict with
  | PyDict d =>
      match dict_lookup d "installed", dict_lookup d "web" with
      | None, None => inl not_a_client_config
      | _, _ => inr (mkFlow creds_dict scopes)
      end
  | _ => inl not_a_client_config
  end.
Definition flow_ok (flow : Flow) : Exc + Credentials := inr creds_fresh.

Definition healthy : Externals :=
  mkExternals tool_mp4 refresh_ok loads flow_of flow_ok nth_id None None 2 None None.
Definition tool_leaves_webm : Externals :=
  mkExternals tool_webm refresh_ok loads flow_of flow_ok nth_id None None 2 None None.
Definition refresh_rejected : Externals :=
  mkExternals tool_mp4 refresh_ko loads flow_of flow_ok nth_id None None 2 None None.
Definition upload_breaks : Externals :=
  mkExternals tool_mp4 refresh_ok loads flow_of flow_ok nth_id None None 2 (Some http_503) None.
Definition permission_denied : Externals :=
  mkExternals tool_mp4 refresh_ok loads flow_of flow_ok nth_id None None 2 None (Some http_403).


(** First start: nothing cached, the client configuration is in the
    environment, the account is empty. *)
Definition cold : World := mkWorld ∅ ∅ 0 None (Some client_config) [] [].
(** A cached valid credential and no client configuration. *)
Definition warm : World := mkWorld ∅ ∅ 0 (Some creds_fresh) None [] [].
(** A cached credential that is expired and refreshable. *)
Definition stale : World := mkWorld ∅ ∅ 0 (Some creds_stale) (Some client_config) [] [].
(** No cached credential and no client configuration. *)
Definition unconfigured : World := mkWorld ∅ ∅ 0 None None [] [].
(** The downloaded file is held by another handle until time [t]. *)
Definition held_until (t : nat) : World :=
  mkWorld ∅ {[song_path := t]} 0 (Some creds_fresh) None [] [].

Definition quoted_name : string := "a'b".
Definition quoted_folder : DriveFile :=
  mkDriveFile "F1" quoted_name folder_mimeType false [] false.
Definition songs_folder : DriveFile :=
  mkDriveFile "F2" "YouTubeSong" folder_mimeType false [] false.
Definition with_drive (files : list DriveFile) : World :=
  mkWorld ∅ ∅ 0 (Some creds_fresh) None files [].

Definition unavailable : Exc := mkExc DownloadError "ERROR: Video unavailable".
Definition access_denied : Exc := mkExc Exception "(access_denied) The user did not consent".

(** A tool that leaves a partial file behind and raises. *)
Definition tool_raises (outtmpl : string) (url : PyVal) : gset string * (Exc + string) :=
  ({["downloads/abc.mp4.part"]}, inl unavailable).
Definition flow_ko (flow : Flow) : Exc + Credentials := inl access_denied.

Definition tool_fails : Externals :=
  mkExternals tool_raises refresh_ok loads flow_of flow_ok nth_id None None 2 None None.
Definition consent_refused : Externals :=
  mkExternals tool_mp4 refresh_ok loads flow_of flow_ko nth_id None None 2 None None.
Definition listing_fails : Externals :=
  mkExternals tool_mp4 refresh_ok loads flow_of flow_ok nth_id (Some http_503) None 2 None None.
Definition creation_fails : Externals :=
  mkExternals tool_mp4 refresh_ok loads flow_of flow_ok nth_id None (Some http_403) 2 None None.

(** A cached credential without access token, not expired. *)
Definition creds_blank : Credentials := mkCreds None false (Some "1//refresh").
Definition blank : World := mkWorld ∅ ∅ 0 (Some creds_blank) (Some client_config) [] [].
(** [GOOGLE_CREDENTIALS] holds an object that is no client configuration,
    or no JSON at all. *)
(** An earlier request left [downloads/abc.mp4] behind. *)
Definition older_copy : World :=
  mkWorld {[song_path]} ∅ 0 (Some creds_fresh) None [] [].
Definition misconfigured : World := mkWorld ∅ ∅ 0 None (Some "{}") [] [].
Definition garbled : World := mkWorld ∅ ∅ 0 None (Some "not json") [] [].

(** An account with a trashed folder, a plain file and a live folder that
    all carry the service's folder name, and another file on disk. *)
Definition trashed_songs : DriveFile :=
  mkDriveFile "F3" "YouTubeSong" folder_mimeType true [] false.
Definition songs_document : DriveFile :=
  mkDriveFile "F4" "YouTubeSong" "application/vnd.google-apps.document" false [] false.
Definition busy : World :=
  mkWorld {["downloads/other.mp4"]} ∅ 0 (Some creds_fresh) None
          [trashed_songs; songs_document; songs_folder] [].


End Scenario.

(** * Properties *)

(** ** Strings *)

Section StringFacts.

Import PyString.

Lemma endswith_refl s : endswith s s = true.
Proof. destruct s; simpl; rewrite ?Ascii.eqb_refl, ?String.eqb_refl; reflexivity. Qed.

Lemma endswith_cons c s suffix :
  endswith (String c s) suffix = String.eqb (String c s) suffix || endswith s suffix.
Proof.
  change (endswith (String c s) suffix)
    with (if String.eqb (String c s) suffix then true else endswith s suffix).
  destruct (String.eqb (String c s) suffix); reflexivity.
Qed.

Lemma endswith_append p suffix : endswith (p +:+ suffix) suffix = true.
Proof.
  induction p as [|c p IH].
  - apply endswith_refl.
  - change (String c p +:+ suffix) with (String c (p +:+ suffix)).
    rewrite endswith_cons, IH. apply orb_true_r.
Qed.

Lemma endswith_inv s suffix : endswith s suffix = true -> exists p, s = p +:+ suffix.
Proof.
  induction s as [|c s IH].
  - simpl. destruct suffix; [exists EmptyString; reflexivity | discriminate].
  - rewrite endswith_cons. intros [H | H]%orb_true_iff.
    + apply String.eqb_eq in H. exists EmptyString. exact H.
    + destruct (IH H) as [p ->]. exists (String c p). reflexivity.
Qed.

Lemma rsplit1_none sep s : rsplit1 sep s = None <-> contains sep s = false.
Proof.
  induction s as [|c s IH]; simpl; [tauto|].
  destruct (rsplit1 sep s) as [[h t]|].
  - split; [discriminate|].
    intros [_ H]%orb_false_iff. apply IH in H. discriminate.
  - destruct (Ascii.eqb c sep); simpl; [split; discriminate|].
    split; intros _; [apply IH|]; reflexivity.
Qed.

Lemma rsplit1_append sep stem tail :
  contains sep tail = false ->
  rsplit1 sep (stem +:+ String sep tail) = Some (stem, tail).
Proof.
  intros Hn. apply rsplit1_none in Hn.
  induction stem as [|c stem IH]; simpl.
  - rewrite Hn, Ascii.eqb_refl. reflexivity.
  - rewrite IH. reflexivity.
Qed.

Lemma rsplit1_inv sep s h t :
  rsplit1 sep s = Some (h, t) -> s = h +:+ String sep t /\ contains sep t = false.
Proof.
  revert h. induction s as [|c s IH]; simpl; [discriminate|]. intros h.
  destruct (rsplit1 sep s) as [[h' t']|] eqn:E.
  - intros [= <- <-]. destruct (IH h' eq_refl) as [-> Hc]. split; [reflexivity | exact Hc].
  - destruct (Ascii.eqb_spec c sep) as [->|]; [|discriminate].
    intros [= <- <-]. split; [reflexivity | apply rsplit1_none, E].
Qed.

Lemma contains_eqb_false sep c s suffix :
  contains sep suffix = false -> c = sep -> String.eqb (String c s) suffix = false.
Proof.
  intros Hn ->. apply String.eqb_neq. intros <-. simpl in Hn.
  rewrite Ascii.eqb_refl in Hn. discriminate.
Qed.

(** A suffix without [sep] is still a suffix of the part after the last [sep]. *)
Lemma endswith_after_last sep s suffix :
  contains sep suffix = false ->
  endswith s suffix = true -> endswith (after_last sep s) suffix = true.
Proof.
  intros Hn. unfold after_last.
  induction s as [|c s IH]; [trivial|].
  intros H. simpl rsplit1.
  destruct (rsplit1 sep s) as [[h t]|] eqn:E.
  - apply IH. rewrite endswith_cons in H. apply orb_true_iff in H as [H|H]; [|exact H].
    apply String.eqb_eq in H. subst suffix. simpl in Hn.
    apply orb_false_iff in Hn as [_ Hn]. apply rsplit1_none in Hn. congruence.
  - destruct (Ascii.eqb_spec c sep) as [Hc|]; [|exact H].
    rewrite endswith_cons, (contains_eqb_false sep) in H by assumption. exact H.
Qed.

End StringFacts.

(** ** C1 and C10: validation of the request body *)

Lemma falsy_url_400 ext d w :
  truthy (default PyNone (dict_lookup d "url")) = false ->
  video_to_drive ext (PyDict d) w
  = (inr (jsonify_error 400 "❌ YouTube URL required"), w).
Proof.
  intros H. unfold video_to_drive, bind, lift, py_get, ret. rewrite H. reflexivity.
Qed.

(** C1.  A body that is an object with no [url], or with [url] the empty
    string, is answered 400 with an error message; the world is left exactly
    as it was: no event is recorded, so the extraction tool was not called. *)
Theorem missing_url_400 :
  forall ext d w,
    dict_lookup d "url" = None \/ dict_lookup d "url" = Some (PyStr EmptyString) ->
    video_to_drive ext (PyDict d) w
    = (inr (jsonify_error 400 "❌ YouTube URL required"), w)
    /\ forall r w', video_to_drive ext (PyDict d) w = (r, w') ->
                    forall url, In (EvExtractInfo url) (trace w') -> In (EvExtractInfo url) (trace w).
Proof.
  intros ext d w H.
  assert (E : video_to_drive ext (PyDict d) w
              = (inr (jsonify_error 400 "❌ YouTube URL required"), w)).
  { apply falsy_url_400. destruct H as [-> | ->]; reflexivity. }
  split; [exact E|]. intros r w'. rewrite E. intros [= _ <-] url Hin. exact Hin.
Qed.

Lemma missing_url_400_witness :
  fst (video_to_drive Scenario.healthy (PyDict []) Scenario.cold)
  = inr (mkResponse 400 [("error", PyStr "❌ YouTube URL required")])
  /\ fst (video_to_drive Scenario.healthy (PyDict [("url", PyStr EmptyString)]) Scenario.cold)
     = inr (mkResponse 400 [("error", PyStr "❌ YouTube URL required")]).
Proof.
  split.
  - rewrite (proj1 (missing_url_400 Scenario.healthy [] Scenario.cold (or_introl eq_refl))).
    reflexivity.
  - rewrite (proj1 (missing_url_400 Scenario.healthy [("url", PyStr EmptyString)] Scenario.cold
                      (or_intror eq_refl))).
    reflexivity.
Defined.

(** C10.  A parsed body that is not an object (JSON [null], a number, a
    string, a list) has no [get]: line 72 raises [AttributeError] before the
    validation test and outside the [try], so the exception leaves the view
    and no response, in particular no 400, is built; nothing else happened. *)
Theorem non_object_body_unhandled :
  forall ext data w,
    is_dict data = false ->
    video_to_drive ext data w
    = (inl (mkExc AttributeError
              ("'" +:+ type_name data +:+ "' object has no attribute 'get'")), w)
    /\ forall resp, fst (video_to_drive ext data w) <> inr resp.
Proof.
  intros ext data w H.
  assert (E : video_to_drive ext data w
              = (inl (mkExc AttributeError
                        ("'" +:+ type_name data +:+ "' object has no attribute 'get'")), w)).
  { destruct data; try discriminate; reflexivity. }
  split; [exact E|]. rewrite E. discriminate.
Qed.

Lemma non_object_body_unhandled_witness :
  video_to_drive Scenario.healthy PyNone Scenario.cold
  = (inl (mkExc AttributeError "'NoneType' object has no attribute 'get'"), Scenario.cold).
Proof.
  exact (proj1 (non_object_body_unhandled Scenario.healthy PyNone Scenario.cold eq_refl)).
Defined.

(** ** The local side is only touched by download and cleanup *)

Section Frame.

Lemma same_local_refl w : same_local w w.
Proof. repeat split. Qed.

Lemma same_local_trans w1 w2 w3 : same_local w1 w2 -> same_local w2 w3 -> same_local w1 w3.
Proof. unfold same_local. intros (-> & -> & ->) (-> & -> & ->). repeat split. Qed.

Lemma keeps_ret {A} (a : A) : keeps_local (ret a).
Proof. intros w r w' [= _ <-]. apply same_local_refl. Qed.

Lemma keeps_raise {A} e : keeps_local (@raise A e).
Proof. intros w r w' [= _ <-]. apply same_local_refl. Qed.

Lemma keeps_lift {A} (x : Exc + A) : keeps_local (lift x).
Proof. intros w r w' [= _ <-]. apply same_local_refl. Qed.

Lemma keeps_gets {A} (f : World -> A) : keeps_local (gets f).
Proof. intros w r w' [= _ <-]. apply same_local_refl. Qed.

Lemma keeps_emit e : keeps_local (emit e).
Proof. intros w r w' [= _ <-]. repeat split. Qed.

Lemma keeps_set_drive d : keeps_local (modify (set_drive d)).
Proof. intros w r w' [= _ <-]. repeat split. Qed.

Lemma keeps_set_token c : keeps_local (modify (set_token_pickle c)).
Proof. intros w r w' [= _ <-]. repeat split. Qed.

Lemma keeps_bind {A B} (m : M A) (k : A -> M B) :
  keeps_local m -> (forall a, keeps_local (k a)) -> keeps_local (bind m k).
Proof.
  intros Hm Hk w r w'. unfold bind.
  destruct (m w) as [[e|a] w1] eqn:E.
  - intros [= _ <-]. exact (Hm _ _ _ E).
  - intros E'. exact (same_local_trans _ _ _ (Hm _ _ _ E) (Hk a _ _ _ E')).
Qed.

End Frame.

Create HintDb local_frame.

#[local] Hint Resolve keeps_ret keeps_raise keeps_lift keeps_gets keeps_emit
  keeps_set_drive keeps_set_token : local_frame.

Ltac keeps :=
  repeat first
    [ apply keeps_bind; [| intros ?]
    | solve [auto with local_frame]
    | match goal with
      | |- keeps_local (match ?x with _ => _ end) => destruct x
      end ].

Section FrameOps.

Variable ext : Externals.

Lemma keeps_files_list svc q : keeps_local (files_list ext svc q).
Proof. unfold files_list. keeps. Qed.

Lemma keeps_get_or_create_folder svc name : keeps_local (get_or_create_folder ext svc name).
Proof.
  unfold get_or_create_folder. apply keeps_bind; [apply keeps_files_list|].
  intros files. unfold files_create_folder. keeps.
Qed.

Lemma keeps_get_gdrive_service : keeps_local (get_gdrive_service ext).
Proof.
  unfold get_gdrive_service, acquire, refresh, run_flow, dump_token,
    os_getenv_GOOGLE_CREDENTIALS.
  keeps.
Qed.

Lemma keeps_next_chunks n name parents : keeps_local (next_chunks ext n name parents).
Proof.
  induction n as [|n IH]; simpl.
  - unfold last_chunk. keeps.
  - keeps.
Qed.

Lemma keeps_permissions_create svc file_id : keeps_local (permissions_create ext svc file_id).
Proof.
  unfold permissions_create. keeps.
  intros w r w' [= _ <-]. repeat split.
Qed.

Lemma keeps_MediaFileUpload filename : keeps_local (MediaFileUpload filename).
Proof. unfold MediaFileUpload, os_path_exists. keeps. Qed.

Lemma keeps_upload_to_drive filename : keeps_local (upload_to_drive ext filename).
Proof.
  unfold upload_to_drive.
  apply keeps_bind; [apply keeps_get_gdrive_service | intros service].
  apply keeps_bind; [apply keeps_get_or_create_folder | intros folder_id].
  apply keeps_bind; [apply keeps_MediaFileUpload | intros _].
  apply keeps_bind; [apply keeps_next_chunks | intros response].
  apply keeps_bind; [apply keeps_permissions_create | intros _].
  apply keeps_ret.
Qed.

End FrameOps.

(** ** Stages of a request *)

Section Stages.

Variable ext : Externals.

Lemma download_ok o url written prepared w :
  ydl_run ext o url = (written, inr prepared) ->
  download ext o url w = (inr (normalize_filename prepared), after_download url written w).
Proof. intros H. unfold download, bind, emit, modify, lift, ret. rewrite H. reflexivity. Qed.

Lemma download_raises o url written e w :
  ydl_run ext o url = (written, inl e) ->
  download ext o url w = (inl e, after_download url written w).
Proof. intros H. unfold download, bind, emit, modify, lift, ret. rewrite H. reflexivity. Qed.

Lemma validated data url w :
  py_get data "url" = inr url -> truthy url = true ->
  video_to_drive ext data w
  = try_except (try_body ext outtmpl url) (fun e => ret (jsonify_error 500 (exc_str e))) w.
Proof. intros H1 H2. unfold video_to_drive, bind, lift. rewrite H1, H2. reflexivity. Qed.

Lemma try_body_absent url written prepared w :
  ydl_run ext outtmpl url = (written, inr prepared) ->
  normalize_filename prepared ∉ disk w ∪ written ->
  try_body ext outtmpl url w
  = (inr (jsonify_error 500 "File not found after download"), after_download url written w).
Proof.
  intros Hrun Habs. unfold try_body, bind. rewrite (download_ok _ _ _ _ _ Hrun).
  unfold os_path_exists, gets. simpl disk.
  rewrite bool_decide_eq_false_2 by exact Habs. reflexivity.
Qed.

Lemma try_body_present url written prepared w :
  ydl_run ext outtmpl url = (written, inr prepared) ->
  normalize_filename prepared ∈ disk w ∪ written ->
  try_body ext outtmpl url w
  = (let* response := upload_to_drive ext (normalize_filename prepared) in
     cleanup (normalize_filename prepared);;
     ret (jsonify_success (normalize_filename prepared) response))
      (after_download url written w).
Proof.
  intros Hrun Hin. unfold try_body. unfold bind at 1. rewrite (download_ok _ _ _ _ _ Hrun).
  unfold bind at 1. unfold os_path_exists, gets. simpl disk.
  rewrite bool_decide_eq_true_2 by exact Hin. reflexivity.
Qed.

End Stages.

(** ** C8: extension normalization *)

(** C8.  Whatever name the extraction tool computes, the path used from then
    on ends in [.mp4], and so does its base name (the returned [file_name]);
    a name already ending in [.mp4] is kept as it is; a name [stem.ext] with
    another extension becomes [stem.mp4].  The download step returns that
    path, and it is the one the handler uploads, deletes and reports. *)
Theorem normalize_filename_mp4 :
  forall filename : string,
    PyString.endswith (normalize_filename filename) ".mp4" = true
    /\ PyString.endswith (basename (normalize_filename filename)) ".mp4" = true
    /\ (PyString.endswith filename ".mp4" = true -> normalize_filename filename = filename)
    /\ (forall stem extension,
          filename = stem +:+ "." +:+ extension ->
          PyString.contains "." extension = false ->
          PyString.endswith filename ".mp4" = false ->
          normalize_filename filename = stem +:+ ".mp4")
    /\ (forall ext url written w,
          ydl_run ext outtmpl url = (written, inr filename) ->
          download ext outtmpl url w
          = (inr (normalize_filename filename), after_download url written w)
          /\ (normalize_filename filename ∈ disk w ∪ written ->
               try_body ext outtmpl url w
               = (let* response := upload_to_drive ext (normalize_filename filename) in
                  cleanup (normalize_filename filename);;
                  ret (jsonify_success (normalize_filename filename) response))
                   (after_download url written w))).
Proof.
  intros filename.
  assert (Hend : PyString.endswith (normalize_filename filename) ".mp4" = true).
  { unfold normalize_filename.
    destruct (PyString.endswith filename ".mp4") eqn:E; simpl; [exact E|].
    apply endswith_append. }
  split; [exact Hend|]. split; [|split; [|split]].
  - apply endswith_after_last; [reflexivity | exact Hend].
  - intros H. unfold normalize_filename. rewrite H. reflexivity.
  - intros stem extension -> Hdot Hne. unfold normalize_filename, PyString.rsplit1_head.
    rewrite Hne. simpl negb. cbv iota.
    change (stem +:+ "." +:+ extension) with (stem +:+ String "." extension).
    rewrite rsplit1_append by exact Hdot. reflexivity.
  - intros ext url written w Hrun. split.
    + exact (download_ok ext outtmpl url written filename w Hrun).
    + intros Hin. exact (try_body_present ext url written filename w Hrun Hin).
Qed.

Lemma normalize_filename_mp4_witness :
  normalize_filename "downloads/abc.webm" = "downloads/abc.mp4"
  /\ normalize_filename Scenario.song_path = Scenario.song_path
  /\ download Scenario.tool_leaves_webm outtmpl Scenario.song_url Scenario.cold
     = (inr (normalize_filename "downloads/abc.webm"),
        after_download Scenario.song_url {["downloads/abc.webm"]} Scenario.cold).
Proof.
  destruct (normalize_filename_mp4 "downloads/abc.webm") as (_ & _ & _ & Hext & Hdl).
  destruct (normalize_filename_mp4 Scenario.song_path) as (_ & _ & Hkeep & _).
  split; [|split].
  - apply (Hext "downloads/abc" "webm"); reflexivity.
  - apply Hkeep. reflexivity.
  - exact (proj1 (Hdl Scenario.tool_leaves_webm Scenario.song_url {["downloads/abc.webm"]}
                    Scenario.cold eq_refl)).
Defined.

(** ** C2: the tool left no file *)

(** C2.  When the tool returns a name but no file exists at the normalized
    path, the answer is 500 "File not found after download"; the only call
    made is the extraction itself: no credential, folder or upload step ran,
    the token cache and the Drive account are as before. *)
Theorem no_file_after_download :
  forall ext data w url written prepared,
    py_get data "url" = inr url ->
    truthy url = true ->
    ydl_run ext outtmpl url = (written, inr prepared) ->
    normalize_filename prepared ∉ disk w ∪ written ->
    video_to_drive ext data w
    = (inr (jsonify_error 500 "File not found after download"), after_download url written w)
    /\ trace (after_download url written w) = (trace w ++ [EvExtractInfo url])%list
    /\ drive (after_download url written w) = drive w
    /\ token_pickle (after_download url written w) = token_pickle w.
Proof.
  intros ext data w url written prepared Hget Htruthy Hrun Habs.
  split; [|repeat split].
  rewrite (validated _ _ _ _ Hget Htruthy). unfold try_except.
  rewrite (try_body_absent _ _ _ _ _ Hrun Habs). reflexivity.
Qed.

Lemma no_file_after_download_witness :
  video_to_drive Scenario.tool_leaves_webm Scenario.request Scenario.cold
  = (inr (jsonify_error 500 "File not found after download"),
     after_download Scenario.song_url {["downloads/abc.webm"]} Scenario.cold).
Proof.
  refine (proj1 (no_file_after_download Scenario.tool_leaves_webm Scenario.request
                   Scenario.cold Scenario.song_url {["downloads/abc.webm"]}
                   "downloads/abc.webm" eq_refl eq_refl eq_refl _)).
  refine (proj1 (bool_decide_eq_false _) _). vm_compute. reflexivity.
Defined.

Ltac computed_absent := refine (proj1 (bool_decide_eq_false _) _); vm_compute; reflexivity.
Ltac computed_present := refine (proj1 (bool_decide_eq_true _) _); vm_compute; reflexivity.

(** ** C4 and C5: the credential store *)

Section CredentialStore.

Variable ext : Externals.

Lemma cached_credential_reused w c :
  token_pickle w = Some c -> valid c = true ->
  get_gdrive_service ext w = (inr (mkService (Some c)), w).
Proof.
  intros Hc Hv. unfold get_gdrive_service, bind, gets. rewrite Hc. simpl. rewrite Hv.
  reflexivity.
Qed.

Lemma expired_is_invalid c : expired c = true -> valid c = false.
Proof. unfold valid. intros ->. destruct (token c); reflexivity. Qed.

Lemma refresh_succeeds w c c' :
  token_pickle w = Some c -> expired c = true -> str_truthy (refresh_token c) = true ->
  oauth_refresh ext c = inr c' ->
  get_gdrive_service ext w
  = (inr (mkService (Some c')),
     set_token_pickle (Some c') (record EvTokenDump (record EvRefresh w))).
Proof.
  intros Hc He Hr Hok. unfold get_gdrive_service, bind, gets. rewrite Hc. simpl.
  rewrite (expired_is_invalid _ He), He, Hr. simpl.
  unfold refresh, bind, emit, lift. rewrite Hok. reflexivity.
Qed.

Lemma refresh_fails w c e :
  token_pickle w = Some c -> expired c = true -> str_truthy (refresh_token c) = true ->
  oauth_refresh ext c = inl e ->
  get_gdrive_service ext w = (inl e, record EvRefresh w).
Proof.
  intros Hc He Hr Hko. unfold get_gdrive_service, bind, gets. rewrite Hc. simpl.
  rewrite (expired_is_invalid _ He), He, Hr. simpl.
  unfold refresh, bind, emit, lift. rewrite Hko. reflexivity.
Qed.

Lemma acquire_without_secret w :
  str_truthy (GOOGLE_CREDENTIALS w) = false ->
  acquire ext w = (inl missing_credentials, record EvGetenv w).
Proof.
  intros H. unfold acquire, os_getenv_GOOGLE_CREDENTIALS, bind, emit, gets. simpl.
  rewrite H. reflexivity.
Qed.

Lemma no_credential_no_secret w :
  cached_valid (token_pickle w) = false ->
  refreshable (token_pickle w) = false ->
  str_truthy (GOOGLE_CREDENTIALS w) = false ->
  get_gdrive_service ext w = (inl missing_credentials, record EvGetenv w).
Proof.
  intros Hv Hr He. unfold get_gdrive_service, bind, gets.
  destruct (token_pickle w) as [c|]; simpl in Hv, Hr |- *; rewrite ?Hv, ?Hr; simpl;
    rewrite (acquire_without_secret _ He); reflexivity.
Qed.

End CredentialStore.

(** C4, counterexample.  With an expired, refreshable credential in the cache
    and the client configuration present in the environment, a rejected
    refresh is raised to the caller: the environment is never read and no
    authorization flow is started. *)
Lemma refresh_failure_propagates :
  get_gdrive_service Scenario.refresh_rejected Scenario.stale
  = (inl Scenario.invalid_grant, record EvRefresh Scenario.stale)
  /\ ~ In EvGetenv (trace (snd (get_gdrive_service Scenario.refresh_rejected Scenario.stale)))
  /\ ~ In EvRunLocalServer
         (trace (snd (get_gdrive_service Scenario.refresh_rejected Scenario.stale)))
  /\ fst (video_to_drive Scenario.refresh_rejected Scenario.request Scenario.stale)
     = inr (jsonify_error 500 (exc_str Scenario.invalid_grant)).
Proof.
  split; [reflexivity|]. split; [|split].
  - vm_compute. intros [H|[]]. discriminate.
  - vm_compute. intros [H|[]]. discriminate.
  - vm_compute. reflexivity.
Qed.

(** C4, as the code has it.  A cached credential that is expired and carries
    a refresh token is refreshed.  When the refresh succeeds the new
    credential is written to the cache and the service is built on it.  When
    it fails its exception is raised as it is: nothing is written, the
    environment is not read and no authorization flow runs. *)
Theorem expired_credential_refreshed :
  forall ext w c,
    token_pickle w = Some c ->
    expired c = true ->
    str_truthy (refresh_token c) = true ->
    match oauth_refresh ext c with
    | inr c' =>
        get_gdrive_service ext w
        = (inr (mkService (Some c')),
           set_token_pickle (Some c') (record EvTokenDump (record EvRefresh w)))
    | inl e =>
        get_gdrive_service ext w = (inl e, record EvRefresh w)
    end.
Proof.
  intros ext w c Hc He Hr.
  destruct (oauth_refresh ext c) as [e|c'] eqn:E.
  - exact (refresh_fails ext w c e Hc He Hr E).
  - exact (refresh_succeeds ext w c c' Hc He Hr E).
Qed.

Lemma expired_credential_refreshed_witness :
  get_gdrive_service Scenario.healthy Scenario.stale
  = (inr (mkService (Some (mkCreds (Some "ya29.renewed") false (Some "1//refresh")))),
     set_token_pickle (Some (mkCreds (Some "ya29.renewed") false (Some "1//refresh")))
       (record EvTokenDump (record EvRefresh Scenario.stale))).
Proof.
  exact (expired_credential_refreshed Scenario.healthy Scenario.stale Scenario.creds_stale
           eq_refl eq_refl eq_refl).
Defined.

Lemma bind_raises {A B} (m : M A) (k : A -> M B) w e w' :
  m w = (inl e, w') -> bind m k w = (inl e, w').
Proof. intros H. unfold bind. rewrite H. reflexivity. Qed.

Lemma bind_returns {A B} (m : M A) (k : A -> M B) w a w' :
  m w = (inr a, w') -> bind m k w = k a w'.
Proof. intros H. unfold bind. rewrite H. reflexivity. Qed.

(** C5.  With no cached credential that is valid or refreshable and no
    [GOOGLE_CREDENTIALS] in the environment, the credential store raises; a
    request that got as far as a downloaded file is answered 500 with that
    message, and after the extraction the only call made is the read of the
    environment: no folder lookup or creation, no upload, no permission call,
    and the Drive account is as before. *)
Theorem missing_bootstrap_secret :
  forall ext data w url written prepared,
    py_get data "url" = inr url ->
    truthy url = true ->
    ydl_run ext outtmpl url = (written, inr prepared) ->
    normalize_filename prepared ∈ disk w ∪ written ->
    cached_valid (token_pickle w) = false ->
    refreshable (token_pickle w) = false ->
    GOOGLE_CREDENTIALS w = None ->
    get_gdrive_service ext (after_download url written w)
    = (inl missing_credentials, record EvGetenv (after_download url written w))
    /\ video_to_drive ext data w
       = (inr (jsonify_error 500 "❌ GOOGLE_CREDENTIALS not found in environment variables"),
          record EvGetenv (after_download url written w))
    /\ trace (record EvGetenv (after_download url written w))
       = (trace w ++ [EvExtractInfo url; EvGetenv])%list
    /\ drive (record EvGetenv (after_download url written w)) = drive w.
Proof.
  intros ext data w url written prepared Hget Htruthy Hrun Hin Hv Hr He.
  assert (Hauth : get_gdrive_service ext (after_download url written w)
                  = (inl missing_credentials, record EvGetenv (after_download url written w))).
  { apply no_credential_no_secret; simpl; [exact Hv | exact Hr | rewrite He; reflexivity]. }
  split; [exact Hauth|]. split; [|split].
  - rewrite (validated _ _ _ _ Hget Htruthy). unfold try_except.
    rewrite (try_body_present _ _ _ _ _ Hrun Hin).
    rewrite (bind_raises _ _ _ missing_credentials
               (record EvGetenv (after_download url written w))); [reflexivity|].
    unfold upload_to_drive. apply bind_raises. exact Hauth.
  - simpl. rewrite <- app_assoc. reflexivity.
  - reflexivity.
Qed.

Lemma missing_bootstrap_secret_witness :
  video_to_drive Scenario.healthy Scenario.request Scenario.unconfigured
  = (inr (jsonify_error 500 "❌ GOOGLE_CREDENTIALS not found in environment variables"),
     record EvGetenv
       (after_download Scenario.song_url {[Scenario.song_path]} Scenario.unconfigured)).
Proof.
  refine (proj1 (proj2 (missing_bootstrap_secret Scenario.healthy Scenario.request
                          Scenario.unconfigured Scenario.song_url {[Scenario.song_path]}
                          Scenario.song_path eq_refl eq_refl eq_refl _
                          eq_refl eq_refl eq_refl))).
  computed_present.
Defined.

(** ** C6: cleanup of the local file *)

Section Cleanup.

Lemma os_remove_free path w :
  path ∈ disk w -> is_locked w path = false ->
  os_remove path w = (inr tt, set_disk (disk w ∖ {[path]}) (record (EvRemove path) w)).
Proof.
  intros Hin Hl. unfold os_remove, bind, emit, gets, modify. simpl.
  rewrite bool_decide_eq_true_2 by exact Hin. simpl.
  change (is_locked (record (EvRemove path) w) path) with (is_locked w path).
  rewrite Hl. reflexivity.
Qed.

Lemma os_remove_locked path w :
  path ∈ disk w -> is_locked w path = true ->
  os_remove path w = (inl (file_in_use path), record (EvRemove path) w).
Proof.
  intros Hin Hl. unfold os_remove, bind, emit, gets, modify. simpl.
  rewrite bool_decide_eq_true_2 by exact Hin. simpl.
  change (is_locked (record (EvRemove path) w) path) with (is_locked w path).
  rewrite Hl. reflexivity.
Qed.

Lemma os_remove_missing path w :
  path ∉ disk w ->
  os_remove path w = (inl (no_such_file path), record (EvRemove path) w).
Proof.
  intros Hout. unfold os_remove, bind, emit, gets, modify. simpl.
  rewrite bool_decide_eq_false_2 by exact Hout. reflexivity.
Qed.

Lemma is_locked_spec w path t :
  lock_until w !! path = Some t -> is_locked w path = Nat.ltb (now w) t.
Proof. unfold is_locked. intros ->. reflexivity. Qed.

(** A file nobody holds is deleted at the first request. *)
Lemma cleanup_free path w :
  path ∈ disk w -> is_locked w path = false ->
  cleanup path w = (inr tt, set_disk (disk w ∖ {[path]}) (record (EvRemove path) w)).
Proof.
  intros Hin Hl. unfold cleanup, try_except_PermissionError, bind, os_path_exists, gets.
  rewrite bool_decide_eq_true_2 by exact Hin.
  rewrite (os_remove_free _ _ Hin Hl). reflexivity.
Qed.

(** A held file: one refused deletion, a wait of 2, one more deletion. *)
Lemma cleanup_locked path w :
  path ∈ disk w -> is_locked w path = true ->
  cleanup path w
  = os_remove path (set_now (now w + 2) (record (EvSleep 2) (record (EvRemove path) w))).
Proof.
  intros Hin Hl. unfold cleanup, try_except_PermissionError, os_path_exists, gets.
  unfold bind at 1. rewrite bool_decide_eq_true_2 by exact Hin.
  rewrite (os_remove_locked _ _ Hin Hl). unfold file_in_use. reflexivity.
Qed.

Lemma cleanup_absent path w : path ∉ disk w -> cleanup path w = (inr tt, w).
Proof.
  intros Hout. unfold cleanup, try_except_PermissionError, bind, os_path_exists, gets.
  rewrite bool_decide_eq_false_2 by exact Hout. reflexivity.
Qed.

(** Whenever cleanup returns normally the file is gone. *)
Lemma cleanup_returns_removed path w w' :
  cleanup path w = (inr tt, w') -> path ∉ disk w'.
Proof.
  destruct (decide (path ∈ disk w)) as [Hin|Hout].
  - destruct (is_locked w path) eqn:Hl.
    + rewrite (cleanup_locked _ _ Hin Hl).
      set (w2 := set_now _ _).
      assert (Hin2 : path ∈ disk w2) by exact Hin.
      destruct (is_locked w2 path) eqn:Hl2.
      * rewrite (os_remove_locked _ _ Hin2 Hl2). discriminate.
      * rewrite (os_remove_free _ _ Hin2 Hl2). intros [= Hw]. subst w'. simpl.
        intros [_ Hn]%elem_of_difference. apply Hn, elem_of_singleton. reflexivity.
    + rewrite (cleanup_free _ _ Hin Hl). intros [= Hw]. subst w'. simpl.
      intros [_ Hn]%elem_of_difference. apply Hn, elem_of_singleton. reflexivity.
  - rewrite (cleanup_absent _ _ Hout). intros [= <-]. exact Hout.
Qed.

End Cleanup.

(** C6.  A request whose upload and permission steps succeeded, and whose
    local file is held by another handle when cleanup starts: the deletion
    is refused, the handler sleeps 2 units and asks for the deletion once
    more, and does nothing else.  If the file is still held the second
    refusal becomes the answer, 500 with its message, and the file stays; if
    it was released the file is deleted and the answer is the success
    response. *)
Theorem cleanup_retry_once :
  forall ext data w url written prepared response w2 t,
    py_get data "url" = inr url ->
    truthy url = true ->
    ydl_run ext outtmpl url = (written, inr prepared) ->
    normalize_filename prepared ∈ disk w ∪ written ->
    upload_to_drive ext (normalize_filename prepared) (after_download url written w)
    = (inr response, w2) ->
    lock_until w !! normalize_filename prepared = Some t ->
    now w < t ->
    now (after_retry (normalize_filename prepared) w2) = now w + 2
    /\ trace (after_retry (normalize_filename prepared) w2)
       = (trace w2 ++ [EvRemove (normalize_filename prepared); EvSleep 2;
                       EvRemove (normalize_filename prepared)])%list
    /\ (now w + 2 < t ->
        video_to_drive ext data w
        = (inr (jsonify_error 500 (exc_str (file_in_use (normalize_filename prepared)))),
           after_retry (normalize_filename prepared) w2)
        /\ normalize_filename prepared ∈ disk (after_retry (normalize_filename prepared) w2))
    /\ (t <= now w + 2 ->
        video_to_drive ext data w
        = (inr (jsonify_success (normalize_filename prepared) response),
           set_disk (disk w2 ∖ {[normalize_filename prepared]})
             (after_retry (normalize_filename prepared) w2))).
Proof.
  intros ext data w url written prepared response w2 t Hget Htruthy Hrun Hin Hup Hlock Hnow.
  set (filename := normalize_filename prepared) in *.
  destruct (keeps_upload_to_drive ext filename _ _ _ Hup) as (Hdisk & Hlocks & Hclock).
  simpl in Hdisk, Hlocks, Hclock.
  assert (Hin2 : filename ∈ disk w2) by (rewrite Hdisk; exact Hin).
  assert (Hl2 : lock_until w2 !! filename = Some t) by (rewrite Hlocks; exact Hlock).
  assert (Hlocked : is_locked w2 filename = true).
  { rewrite (is_locked_spec _ _ _ Hl2), Hclock. apply Nat.ltb_lt. exact Hnow. }
  assert (Hhandler : video_to_drive ext data w
            = try_except (cleanup filename;; ret (jsonify_success filename response))
                (fun e => ret (jsonify_error 500 (exc_str e))) w2).
  { rewrite (validated _ _ _ _ Hget Htruthy). unfold try_except.
    rewrite (try_body_present _ _ _ _ _ Hrun Hin). fold filename.
    rewrite (bind_returns _ _ _ _ _ Hup). reflexivity. }
  set (w3 := set_now (now w2 + 2) (record (EvSleep 2) (record (EvRemove filename) w2))).
  assert (Hin3 : filename ∈ disk w3) by exact Hin2.
  assert (Hl3 : is_locked w3 filename = Nat.ltb (now w + 2) t).
  { rewrite (is_locked_spec w3 filename t Hl2). simpl. rewrite Hclock. reflexivity. }
  split; [simpl; rewrite Hclock; reflexivity|].
  split; [simpl; rewrite <- !app_assoc; reflexivity|].
  split.
  - intros Hstill. split; [|exact Hin2].
    rewrite Hhandler. unfold try_except.
    rewrite (bind_raises _ _ _ (file_in_use filename) (after_retry filename w2)); [reflexivity|].
    rewrite (cleanup_locked _ _ Hin2 Hlocked). apply (os_remove_locked filename w3 Hin3).
    rewrite Hl3. apply Nat.ltb_lt. exact Hstill.
  - intros Hfree. rewrite Hhandler. unfold try_except.
    rewrite (bind_returns _ _ _ tt
               (set_disk (disk w2 ∖ {[filename]}) (after_retry filename w2))); [reflexivity|].
    rewrite (cleanup_locked _ _ Hin2 Hlocked). apply (os_remove_free filename w3 Hin3).
    rewrite Hl3. apply Nat.ltb_ge. exact Hfree.
Qed.

Lemma cleanup_retry_once_witness :
  fst (video_to_drive Scenario.healthy Scenario.request (Scenario.held_until 5))
  = inr (jsonify_error 500 (exc_str (file_in_use Scenario.song_path)))
  /\ fst (video_to_drive Scenario.healthy Scenario.request (Scenario.held_until 1))
     = inr (jsonify_success Scenario.song_path (mkUploadResponse "ff" (webViewLink "ff"))).
Proof.
  split.
  - assert (Hin : normalize_filename Scenario.song_path
                  ∈ disk (Scenario.held_until 5) ∪ {[Scenario.song_path]})
      by computed_present.
    assert (Hlock : lock_until (Scenario.held_until 5) !! normalize_filename Scenario.song_path
                    = Some 5) by (vm_compute; reflexivity).
    assert (Hup : upload_to_drive Scenario.healthy (normalize_filename Scenario.song_path)
                    (after_download Scenario.song_url {[Scenario.song_path]}
                       (Scenario.held_until 5))
                  = (inr (mkUploadResponse "ff" (webViewLink "ff")),
                     snd (upload_to_drive Scenario.healthy Scenario.song_path
                            (after_download Scenario.song_url {[Scenario.song_path]}
                               (Scenario.held_until 5)))))
      by (vm_compute; reflexivity).
    destruct (cleanup_retry_once Scenario.healthy Scenario.request (Scenario.held_until 5)
                Scenario.song_url {[Scenario.song_path]} Scenario.song_path
                (mkUploadResponse "ff" (webViewLink "ff"))
                (snd (upload_to_drive Scenario.healthy Scenario.song_path
                        (after_download Scenario.song_url {[Scenario.song_path]}
                           (Scenario.held_until 5))))
                5 eq_refl eq_refl eq_refl Hin Hup Hlock ltac:(simpl; lia))
      as (_ & _ & Hheld & _).
    rewrite (proj1 (Hheld ltac:(simpl; lia))). reflexivity.
  - assert (Hin : normalize_filename Scenario.song_path
                  ∈ disk (Scenario.held_until 1) ∪ {[Scenario.song_path]})
      by computed_present.
    assert (Hlock : lock_until (Scenario.held_until 1) !! normalize_filename Scenario.song_path
                    = Some 1) by (vm_compute; reflexivity).
    assert (Hup : upload_to_drive Scenario.healthy (normalize_filename Scenario.song_path)
                    (after_download Scenario.song_url {[Scenario.song_path]}
                       (Scenario.held_until 1))
                  = (inr (mkUploadResponse "ff" (webViewLink "ff")),
                     snd (upload_to_drive Scenario.healthy Scenario.song_path
                            (after_download Scenario.song_url {[Scenario.song_path]}
                               (Scenario.held_until 1)))))
      by (vm_compute; reflexivity).
    destruct (cleanup_retry_once Scenario.healthy Scenario.request (Scenario.held_until 1)
                Scenario.song_url {[Scenario.song_path]} Scenario.song_path
                (mkUploadResponse "ff" (webViewLink "ff"))
                (snd (upload_to_drive Scenario.healthy Scenario.song_path
                        (after_download Scenario.song_url {[Scenario.song_path]}
                           (Scenario.held_until 1))))
                1 eq_refl eq_refl eq_refl Hin Hup Hlock ltac:(simpl; lia))
      as (_ & _ & _ & Hreleased).
    rewrite (Hreleased ltac:(simpl; lia)). reflexivity.
Defined.

(** ** C9: the permission step *)

Section Upload.

Variable ext : Externals.

Lemma next_chunks_run n name parents w :
  next_chunks ext n name parents w = last_chunk ext name parents (chunks_recorded n w).
Proof.
  revert w. induction n as [|n IH]; intros w; [reflexivity|].
  simpl. unfold bind at 1. unfold emit at 1. apply IH.
Qed.

Lemma chunks_recorded_drive n w : drive (chunks_recorded n w) = drive w.
Proof. revert w. induction n as [|n IH]; intros w; [reflexivity|]. simpl. rewrite IH. reflexivity. Qed.

Lemma chunks_recorded_disk n w : disk (chunks_recorded n w) = disk w.
Proof. revert w. induction n as [|n IH]; intros w; [reflexivity|]. simpl. rewrite IH. reflexivity. Qed.

Lemma MediaFileUpload_present filename w :
  filename ∈ disk w ->
  MediaFileUpload filename w = (inr tt, record (EvMediaOpen filename) w).
Proof.
  intros Hin. unfold MediaFileUpload, bind, emit, os_path_exists, gets. simpl.
  rewrite bool_decide_eq_true_2 by exact Hin. reflexivity.
Qed.

(** The transfer, when no chunk is refused: the object is created. *)
Lemma transfer_completes filename folder_id w :
  filename ∈ disk w ->
  upload_fault ext = None ->
  bind (MediaFileUpload filename)
       (fun _ => next_chunks ext (upload_chunks ext) (basename filename) [folder_id]) w
  = (inr (mkUploadResponse (new_id ext (drive w)) (webViewLink (new_id ext (drive w)))),
     uploaded ext filename folder_id w).
Proof.
  intros Hin Hok. rewrite (bind_returns _ _ _ _ _ (MediaFileUpload_present _ _ Hin)).
  rewrite next_chunks_run. unfold last_chunk, bind, emit, gets, modify. rewrite Hok.
  simpl. rewrite chunks_recorded_drive. reflexivity.
Qed.

End Upload.

(** C9.  The transfer completed and created the remote object, then the
    permission call raised [e]: the request is answered 500 with [e]'s
    message; the account holds what it held after folder resolution plus the
    new object, which nothing removed (and which was not made public); the
    local file is still on disk as well. *)
Theorem permission_failure_keeps_object :
  forall ext data w url written prepared service w2 folder_id w3 e,
    py_get data "url" = inr url ->
    truthy url = true ->
    ydl_run ext outtmpl url = (written, inr prepared) ->
    normalize_filename prepared ∈ disk w ∪ written ->
    get_gdrive_service ext (after_download url written w) = (inr service, w2) ->
    get_or_create_folder ext service "YouTubeSong" w2 = (inr folder_id, w3) ->
    upload_fault ext = None ->
    permission_fault ext = Some e ->
    video_to_drive ext data w
    = (inr (jsonify_error 500 (exc_str e)),
       record (EvPermissionsCreate (new_id ext (drive w3)))
         (uploaded ext (normalize_filename prepared) folder_id w3))
    /\ drive (record (EvPermissionsCreate (new_id ext (drive w3)))
                (uploaded ext (normalize_filename prepared) folder_id w3))
       = (drive w3 ++ [remote_object ext (normalize_filename prepared) folder_id w3])%list
    /\ df_id (remote_object ext (normalize_filename prepared) folder_id w3)
       = new_id ext (drive w3)
    /\ normalize_filename prepared
       ∈ disk (record (EvPermissionsCreate (new_id ext (drive w3)))
                 (uploaded ext (normalize_filename prepared) folder_id w3)).
Proof.
  intros ext data w url written prepared service w2 folder_id w3 e
         Hget Htruthy Htool Hin Hauth Hfolder Hup Hperm.
  set (filename := normalize_filename prepared) in *.
  assert (Hin3 : filename ∈ disk w3).
  { destruct (keeps_get_gdrive_service ext _ _ _ Hauth) as (Hd2 & _).
    destruct (keeps_get_or_create_folder ext _ _ _ _ _ Hfolder) as (Hd3 & _).
    rewrite Hd3, Hd2. exact Hin. }
  split; [|split; [reflexivity|split; [reflexivity|]]].
  - rewrite (validated _ _ _ _ Hget Htruthy). unfold try_except.
    rewrite (try_body_present _ _ _ _ _ Htool Hin). fold filename.
    rewrite (bind_raises _ _ _ e
               (record (EvPermissionsCreate (new_id ext (drive w3)))
                  (uploaded ext filename folder_id w3))); [reflexivity|].
    unfold upload_to_drive.
    rewrite (bind_returns _ _ _ _ _ Hauth), (bind_returns _ _ _ _ _ Hfolder).
    pose proof (transfer_completes ext filename folder_id w3 Hin3 Hup) as Htransfer.
    unfold bind in Htransfer |- *.
    destruct (MediaFileUpload filename w3) as [[e1|[]] w4]; [discriminate|].
    rewrite Htransfer. simpl resp_id.
    unfold permissions_create, emit. rewrite Hperm. reflexivity.
  - simpl. rewrite chunks_recorded_disk. exact Hin3.
Qed.

Lemma permission_failure_keeps_object_witness :
  video_to_drive Scenario.permission_denied Scenario.request Scenario.warm
  = (inr (jsonify_error 500 (exc_str Scenario.http_403)),
     record (EvPermissionsCreate "ff")
       (uploaded Scenario.permission_denied Scenario.song_path "f"
          (snd (get_or_create_folder Scenario.permission_denied
                  (mkService (Some Scenario.creds_fresh)) "YouTubeSong"
                  (after_download Scenario.song_url {[Scenario.song_path]} Scenario.warm))))).
Proof.
  assert (Hin : normalize_filename Scenario.song_path
                ∈ disk Scenario.warm ∪ {[Scenario.song_path]}) by computed_present.
  assert (Hfolder : get_or_create_folder Scenario.permission_denied
                      (mkService (Some Scenario.creds_fresh)) "YouTubeSong"
                      (after_download Scenario.song_url {[Scenario.song_path]} Scenario.warm)
                    = (inr "f",
                       snd (get_or_create_folder Scenario.permission_denied
                              (mkService (Some Scenario.creds_fresh)) "YouTubeSong"
                              (after_download Scenario.song_url {[Scenario.song_path]}
                                 Scenario.warm))))
    by (vm_compute; reflexivity).
  exact (proj1 (permission_failure_keeps_object Scenario.permission_denied Scenario.request
                  Scenario.warm Scenario.song_url {[Scenario.song_path]} Scenario.song_path
                  (mkService (Some Scenario.creds_fresh)) _ "f" _ Scenario.http_403
                  eq_refl eq_refl eq_refl Hin eq_refl Hfolder eq_refl eq_refl)).
Defined.

(** ** C7: folder resolution *)

Section FolderResolver.

Variable ext : Externals.

Lemma read_literal_plain name rest :
  plain_name name = true ->
  DriveQuery.read_literal (name +:+ String "'" rest) = Some (name, rest).
Proof.
  unfold plain_name. induction name as [|c name IH]; simpl.
  - intros _. reflexivity.
  - rewrite !negb_orb. intros [[Hq Hrest1]%andb_true_iff [Hb Hrest2]%andb_true_iff]%andb_true_iff.
    apply negb_true_iff in Hq, Hb. rewrite Hq, Hb.
    rewrite IH; [reflexivity|]. rewrite Hrest1, Hrest2. reflexivity.
Qed.

(** The query built for a plain name reads back as the search for that name
    among the non-trashed folders. *)
Lemma parse_folder_query name :
  plain_name name = true ->
  DriveQuery.parse (folder_query name) = Some (DriveQuery.mkQuery name folder_mimeType false).
Proof.
  intros Hplain. unfold DriveQuery.parse.
  change (DriveQuery.strip_prefix "name='" (folder_query name))
    with (Some (name +:+ String "'"
                  " and mimeType='application/vnd.google-apps.folder' and trashed=false")).
  cbn [mbind option_bind]. rewrite (read_literal_plain _ _ Hplain). reflexivity.
Qed.

Lemma files_list_plain svc name w :
  plain_name name = true ->
  list_fault ext = None ->
  files_list ext svc (folder_query name) w
  = (inr (folders_named name (drive w)), record (EvFilesList (folder_query name)) w).
Proof.
  intros Hplain Hok. unfold files_list, bind, emit. rewrite Hok, (parse_folder_query _ Hplain).
  reflexivity.
Qed.

Lemma folder_found svc name w f rest :
  plain_name name = true ->
  list_fault ext = None ->
  folders_named name (drive w) = f :: rest ->
  get_or_create_folder ext svc name w
  = (inr (df_id f), record (EvFilesList (folder_query name)) w).
Proof.
  intros Hplain Hok Hfound. unfold get_or_create_folder.
  rewrite (bind_returns _ _ _ _ _ (files_list_plain svc name w Hplain Hok)), Hfound.
  reflexivity.
Qed.

Lemma folder_created svc name w :
  plain_name name = true ->
  list_fault ext = None ->
  folder_create_fault ext = None ->
  folders_named name (drive w) = [] ->
  get_or_create_folder ext svc name w
  = (inr (new_id ext (drive w)),
     set_drive (drive w ++ [mkDriveFile (new_id ext (drive w)) name folder_mimeType false [] false])
       (record (EvFolderCreate name) (record (EvFilesList (folder_query name)) w))).
Proof.
  intros Hplain Hok Hok' Hnone. unfold get_or_create_folder.
  rewrite (bind_returns _ _ _ _ _ (files_list_plain svc name w Hplain Hok)), Hnone.
  unfold files_create_folder, bind, emit, gets, modify. rewrite Hok'. reflexivity.
Qed.

(** For a name without quote or backslash and a provider that answers:
    an existing folder is returned, the first in listing order, and nothing
    is created, however often the resolver is called; without one, a folder
    of that name is created and its identifier returned. *)
Lemma folder_resolution_plain_names svc name w :
  plain_name name = true ->
  list_fault ext = None ->
  (forall f rest,
      folders_named name (drive w) = f :: rest ->
      exists w1 w2,
        get_or_create_folder ext svc name w = (inr (df_id f), w1)
        /\ get_or_create_folder ext svc name w1 = (inr (df_id f), w2)
        /\ drive w1 = drive w /\ drive w2 = drive w)
  /\ (folder_create_fault ext = None ->
      folders_named name (drive w) = [] ->
      exists w1,
        get_or_create_folder ext svc name w = (inr (new_id ext (drive w)), w1)
        /\ drive w1
           = (drive w ++ [mkDriveFile (new_id ext (drive w)) name folder_mimeType false [] false])%list).
Proof.
  intros Hplain Hok. split.
  - intros f rest Hfound.
    exists (record (EvFilesList (folder_query name)) w),
           (record (EvFilesList (folder_query name)) (record (EvFilesList (folder_query name)) w)).
    split; [exact (folder_found svc name w f rest Hplain Hok Hfound)|].
    split; [|split; reflexivity].
    exact (folder_found svc name (record (EvFilesList (folder_query name)) w) f rest
             Hplain Hok Hfound).
  - intros Hok' Hnone. eexists. split; [exact (folder_created svc name w Hplain Hok Hok' Hnone)|].
    reflexivity.
Qed.

End FolderResolver.

Lemma folders_named_created name files folder_id :
  folders_named name files = [] ->
  folders_named name (files ++ [mkDriveFile folder_id name folder_mimeType false [] false])
  = [mkDriveFile folder_id name folder_mimeType false [] false].
Proof.
  intros Hnone. unfold folders_named in *. rewrite filter_app, Hnone. simpl.
  unfold filter at 1. simpl. unfold DriveQuery.matches. simpl.
  rewrite !String.eqb_refl. reflexivity.
Qed.

(** C7.  Folder resolution for a name that needs no escaping in the query
    (no quote, no backslash; the service only ever passes [YouTubeSong]) and
    a provider that answers.  If the account holds non-trashed folders of
    exactly that name, the identifier of the first in listing order is
    returned and the only call made is the listing: nothing is created, and
    a second call returns the same identifier and again creates nothing.  If
    it holds none, one folder of that name is created at the end of the
    listing and its new identifier returned; from then on it is the folder
    that resolution finds. *)
Theorem folder_resolution_idempotent :
  forall ext svc name w,
    plain_name name = true ->
    list_fault ext = None ->
    (forall f rest,
        folders_named name (drive w) = f :: rest ->
        get_or_create_folder ext svc name w
        = (inr (df_id f), record (EvFilesList (folder_query name)) w)
        /\ get_or_create_folder ext svc name (record (EvFilesList (folder_query name)) w)
           = (inr (df_id f),
              record (EvFilesList (folder_query name))
                (record (EvFilesList (folder_query name)) w))
        /\ drive (record (EvFilesList (folder_query name))
                    (record (EvFilesList (folder_query name)) w))
           = drive w)
    /\ (folder_create_fault ext = None ->
        folders_named name (drive w) = [] ->
        let folder := mkDriveFile (new_id ext (drive w)) name folder_mimeType false [] false in
        let w1 := set_drive (drive w ++ [folder])
                    (record (EvFolderCreate name)
                       (record (EvFilesList (folder_query name)) w)) in
        get_or_create_folder ext svc name w = (inr (df_id folder), w1)
        /\ folders_named name (drive w1) = [folder]
        /\ get_or_create_folder ext svc name w1
           = (inr (df_id folder), record (EvFilesList (folder_query name)) w1)).
Proof.
  intros ext svc name w Hplain Hok. split.
  - intros f rest Hfound.
    split; [exact (folder_found ext svc name w f rest Hplain Hok Hfound)|].
    split; [|reflexivity].
    exact (folder_found ext svc name (record (EvFilesList (folder_query name)) w) f rest
             Hplain Hok Hfound).
  - intros Hcreate Hnone folder w1.
    assert (Hnow : folders_named name (drive w1) = [folder])
      by exact (folders_named_created name (drive w) (new_id ext (drive w)) Hnone).
    split; [exact (folder_created ext svc name w Hplain Hok Hcreate Hnone)|].
    split; [exact Hnow|].
    exact (folder_found ext svc name w1 folder [] Hplain Hok Hnow).
Qed.

Lemma folder_resolution_idempotent_witness :
  (get_or_create_folder Scenario.healthy (mkService (Some Scenario.creds_fresh))
     "YouTubeSong" Scenario.busy
   = (inr "F2", record (EvFilesList (folder_query "YouTubeSong")) Scenario.busy)
   /\ get_or_create_folder Scenario.healthy (mkService (Some Scenario.creds_fresh))
        "YouTubeSong" (record (EvFilesList (folder_query "YouTubeSong")) Scenario.busy)
      = (inr "F2",
         record (EvFilesList (folder_query "YouTubeSong"))
           (record (EvFilesList (folder_query "YouTubeSong")) Scenario.busy)))
  /\ get_or_create_folder Scenario.healthy (mkService (Some Scenario.creds_fresh))
       "YouTubeSong" Scenario.warm
     = (inr "f",
        set_drive [mkDriveFile "f" "YouTubeSong" folder_mimeType false [] false]
          (record (EvFolderCreate "YouTubeSong")
             (record (EvFilesList (folder_query "YouTubeSong")) Scenario.warm))).
Proof.
  split.
  - destruct (proj1 (folder_resolution_idempotent Scenario.healthy
                       (mkService (Some Scenario.creds_fresh)) "YouTubeSong" Scenario.busy
                       eq_refl eq_refl)
                Scenario.songs_folder [] ltac:(vm_compute; reflexivity))
      as (Hfirst & Hsecond & _).
    split; [exact Hfirst | exact Hsecond].
  - exact (proj1 (proj2 (folder_resolution_idempotent Scenario.healthy
                           (mkService (Some Scenario.creds_fresh)) "YouTubeSong"
                           Scenario.warm eq_refl eq_refl)
                    eq_refl ltac:(vm_compute; reflexivity))).
Defined.

(** ** Worked scenarios *)

(** A first request on a fresh installation: the credential is acquired and
    cached, the folder is created, the file is uploaded, made public and
    removed from disk. *)
Example first_request :
  fst (video_to_drive Scenario.healthy Scenario.request Scenario.cold)
  = inr (jsonify_success "downloads/abc.mp4" (mkUploadResponse "ff" (webViewLink "ff")))
  /\ trace (snd (video_to_drive Scenario.healthy Scenario.request Scenario.cold))
     = [EvExtractInfo Scenario.song_url; EvGetenv; EvRunLocalServer; EvTokenDump;
        EvFilesList (folder_query "YouTubeSong"); EvFolderCreate "YouTubeSong";
        EvMediaOpen "downloads/abc.mp4"; EvNextChunk; EvNextChunk; EvNextChunk;
        EvPermissionsCreate "ff"; EvRemove "downloads/abc.mp4"]
  /\ drive (snd (video_to_drive Scenario.healthy Scenario.request Scenario.cold))
     = [mkDriveFile "f" "YouTubeSong" folder_mimeType false [] false;
        mkDriveFile "ff" "abc.mp4" "video/mp4" false ["f"] true]
  /\ disk (snd (video_to_drive Scenario.healthy Scenario.request Scenario.cold)) = ∅
  /\ token_pickle (snd (video_to_drive Scenario.healthy Scenario.request Scenario.cold))
     = Some Scenario.creds_fresh.
Proof. repeat split; vm_compute; reflexivity. Qed.

(** With the folder already in the account it is found again, twice, and the
    account does not change. *)
Example existing_folder_reused :
  let svc := mkService (Some Scenario.creds_fresh) in
  let w := Scenario.with_drive [Scenario.quoted_folder; Scenario.songs_folder] in
  fst (get_or_create_folder Scenario.healthy svc "YouTubeSong" w) = inr "F2"
  /\ fst (get_or_create_folder Scenario.healthy svc "YouTubeSong"
            (snd (get_or_create_folder Scenario.healthy svc "YouTubeSong" w))) = inr "F2"
  /\ drive (snd (get_or_create_folder Scenario.healthy svc "YouTubeSong"
                   (snd (get_or_create_folder Scenario.healthy svc "YouTubeSong" w))))
     = [Scenario.quoted_folder; Scenario.songs_folder].
Proof. repeat split; vm_compute; reflexivity. Qed.

(** A credential that is expired and has no refresh token is replaced
    through the authorization flow. *)
Example dead_credential_reacquired :
  get_gdrive_service Scenario.healthy
    (mkWorld ∅ ∅ 0 (Some Scenario.creds_dead) (Some Scenario.client_config) [] [])
  = (inr (mkService (Some Scenario.creds_fresh)),
     mkWorld ∅ ∅ 0 (Some Scenario.creds_fresh) (Some Scenario.client_config) []
       [EvGetenv; EvRunLocalServer; EvTokenDump]).
Proof. vm_compute. reflexivity. Qed.

(** * Further properties of the handler *)

(** ** Every run takes one of the seven paths *)

Lemma video_to_drive_run ext data w r w' :
  video_to_drive ext data w = (r, w') -> Run ext data w r w'.
Proof.
  intros Hrun.
  destruct (py_get data "url") as [e|url] eqn:Hget.
  { destruct data; try discriminate Hget.
    all: injection Hrun as <- <-; apply run_not_object; reflexivity. }
  destruct (truthy url) eqn:Htruthy.
  2:{ unfold video_to_drive, bind, lift in Hrun. rewrite Hget, Htruthy in Hrun.
      injection Hrun as <- <-. exact (run_rejected ext data w url Hget Htruthy). }
  rewrite (validated _ _ _ _ Hget Htruthy) in Hrun. unfold try_except in Hrun.
  destruct (ydl_run ext outtmpl url) as [written [e|prepared]] eqn:Htool.
  { unfold try_body in Hrun.
    rewrite (bind_raises _ _ _ _ _ (download_raises _ _ _ _ _ w Htool)) in Hrun.
    injection Hrun as <- <-. exact (run_tool_raised ext data w url written e Hget Htruthy Htool). }
  destruct (decide (normalize_filename prepared ∈ disk w ∪ written)) as [Hin|Hout].
  2:{ rewrite (try_body_absent _ _ _ _ _ Htool Hout) in Hrun. injection Hrun as <- <-.
      exact (run_file_missing ext data w url written prepared Hget Htruthy Htool Hout). }
  rewrite (try_body_present _ _ _ _ _ Htool Hin) in Hrun. unfold bind in Hrun.
  destruct (upload_to_drive ext _ _) as [[e|response] w2] eqn:Hup.
  { injection Hrun as <- <-.
    exact (run_upload_raised ext data w url written prepared e w2 Hget Htruthy Htool Hin Hup). }
  destruct (cleanup _ w2) as [[e|[]] w3] eqn:Hclean; injection Hrun as <- <-.
  - exact (run_cleanup_raised ext data w url written prepared response w2 e w3
             Hget Htruthy Htool Hin Hup Hclean).
  - exact (run_done ext data w url written prepared response w2 w3
             Hget Htruthy Htool Hin Hup Hclean).
Qed.

(** ** What the caller can receive *)

(** X1.  Whenever the view returns a response, the parsed body was an
    object and the response has one of two shapes: status 200 with exactly
    the fields [message], [file_id], [file_name] and [public_link], or
    status 400 or 500 with the single field [error].  (A body that is not an
    object never gets a response: line 72 raises.) *)
Theorem answer_shapes :
  forall ext data w resp w',
    video_to_drive ext data w = (inr resp, w') ->
    is_dict data = true
    /\ (status resp = 200
        /\ map fst (body resp) = ["message"; "file_id"; "file_name"; "public_link"]
        \/ (status resp = 400 \/ status resp = 500)
           /\ map fst (body resp) = ["error"]).
Proof.
  intros ext data w resp w' Hrun.
  assert (Hobj : forall url, py_get data "url" = inr url -> is_dict data = true).
  { intros url. destruct data; simpl; intros; congruence. }
  pose proof (video_to_drive_run _ _ _ _ _ Hrun) as HR.
  inversion HR; subst; simpl; eauto 10.
Qed.

Lemma answer_shapes_witness :
  is_dict Scenario.request = true
  /\ (status (jsonify_success "downloads/abc.mp4" (mkUploadResponse "ff" (webViewLink "ff")))
      = 200
      /\ map fst (body (jsonify_success "downloads/abc.mp4"
                          (mkUploadResponse "ff" (webViewLink "ff"))))
         = ["message"; "file_id"; "file_name"; "public_link"]
      \/ (status (jsonify_success "downloads/abc.mp4"
                    (mkUploadResponse "ff" (webViewLink "ff"))) = 400
          \/ status (jsonify_success "downloads/abc.mp4"
                       (mkUploadResponse "ff" (webViewLink "ff"))) = 500)
         /\ map fst (body (jsonify_success "downloads/abc.mp4"
                             (mkUploadResponse "ff" (webViewLink "ff"))))
            = ["error"]).
Proof.
  assert (Hrun : video_to_drive Scenario.healthy Scenario.request Scenario.cold
                 = (inr (jsonify_success "downloads/abc.mp4"
                           (mkUploadResponse "ff" (webViewLink "ff"))),
                    snd (video_to_drive Scenario.healthy Scenario.request Scenario.cold)))
    by (vm_compute; reflexivity).
  exact (answer_shapes _ _ _ _ _ Hrun).
Defined.

(** ** Relations that every step keeps *)

Section Preserves.

Context (R : World -> World -> Prop) `{!Reflexive R, !Transitive R}.

Lemma preserves_ret {A} (a : A) : preserves R (ret a).
Proof. intros w r w' [= _ <-]. reflexivity. Qed.

Lemma preserves_raise {A} e : preserves R (@raise A e).
Proof. intros w r w' [= _ <-]. reflexivity. Qed.

Lemma preserves_lift {A} (x : Exc + A) : preserves R (lift x).
Proof. intros w r w' [= _ <-]. reflexivity. Qed.

Lemma preserves_gets {A} (f : World -> A) : preserves R (gets f).
Proof. intros w r w' [= _ <-]. reflexivity. Qed.

Lemma preserves_modify f : (forall w, R w (f w)) -> preserves R (modify f).
Proof. intros Hf w r w' [= _ <-]. apply Hf. Qed.

Lemma preserves_emit e : (forall w, R w (record e w)) -> preserves R (emit e).
Proof. intros Hf w r w' [= _ <-]. apply Hf. Qed.

Lemma preserves_bind {A B} (m : M A) (k : A -> M B) :
  preserves R m -> (forall a, preserves R (k a)) -> preserves R (bind m k).
Proof.
  intros Hm Hk w r w'. unfold bind.
  destruct (m w) as [[e|a] w1] eqn:E.
  - intros [= _ <-]. exact (Hm _ _ _ E).
  - intros E'. transitivity w1; [exact (Hm _ _ _ E) | exact (Hk a _ _ _ E')].
Qed.

Lemma preserves_try_except {A} (m : M A) h :
  preserves R m -> (forall e, preserves R (h e)) -> preserves R (try_except m h).
Proof.
  intros Hm Hh w r w'. unfold try_except.
  destruct (m w) as [[e|a] w1] eqn:E.
  - intros E'. transitivity w1; [exact (Hm _ _ _ E) | exact (Hh e _ _ _ E')].
  - intros [= _ <-]. exact (Hm _ _ _ E).
Qed.

Lemma preserves_try_except_PermissionError {A} (m h : M A) :
  preserves R m -> preserves R h -> preserves R (try_except_PermissionError m h).
Proof.
  intros Hm Hh w r w'. unfold try_except_PermissionError.
  destruct (m w) as [[[[] msg]|a] w1] eqn:E;
    try (intros [= _ <-]; exact (Hm _ _ _ E)).
  intros E'. transitivity w1; [exact (Hm _ _ _ E) | exact (Hh _ _ _ E')].
Qed.

End Preserves.

#[global] Instance same_drive_refl : Reflexive same_drive.
Proof. intros w. reflexivity. Qed.

#[global] Instance same_drive_trans : Transitive same_drive.
Proof. unfold same_drive. intros w1 w2 w3 H1 H2. congruence. Qed.

#[global] Instance drive_grows_refl : Reflexive drive_grows.
Proof. intros w. exists []. symmetry. apply app_nil_r. Qed.

#[global] Instance drive_grows_trans : Transitive drive_grows.
Proof.
  intros w1 w2 w3 [a1 H1] [a2 H2]. exists (a1 ++ a2)%list.
  rewrite H2, H1. symmetry. apply app_assoc.
Qed.

#[global] Instance trace_extends_refl : Reflexive trace_extends.
Proof. intros w. exists []. symmetry. apply app_nil_r. Qed.

#[global] Instance trace_extends_trans : Transitive trace_extends.
Proof.
  intros w1 w2 w3 [a1 H1] [a2 H2]. exists (a1 ++ a2)%list.
  rewrite H2, H1. symmetry. apply app_assoc.
Qed.

Lemma same_drive_grows w w' : same_drive w w' -> drive_grows w w'.
Proof. unfold same_drive. intros H. exists []. rewrite H. symmetry. apply app_nil_r. Qed.

Lemma preserves_weaken (R S : World -> World -> Prop) {A} (m : M A) :
  (forall w w', R w w' -> S w w') -> preserves R m -> preserves S m.
Proof. intros HRS Hm w r w' E. apply HRS. exact (Hm _ _ _ E). Qed.

(** Breaks a computation into its steps; [side] closes the goals about
    single updates of the world. *)
Ltac preserving side :=
  repeat first
    [ apply preserves_bind; [typeclasses eauto | | intros ?]
    | solve [apply preserves_ret; typeclasses eauto]
    | solve [apply preserves_raise; typeclasses eauto]
    | solve [apply preserves_lift; typeclasses eauto]
    | solve [apply preserves_gets; typeclasses eauto]
    | solve [apply preserves_emit; side]
    | solve [apply preserves_modify; side]
    | assumption
    | match goal with
      | |- preserves _ (match ?x with _ => _ end) => destruct x
      end ].

Lemma trace_extends_same w w' : trace w' = trace w -> trace_extends w w'.
Proof. intros H. exists []. rewrite H. symmetry. apply app_nil_r. Qed.

Ltac trace_side :=
  intros; first [ apply trace_extends_same; reflexivity | eexists; simpl; reflexivity ].
Ltac drive_side := intros; reflexivity.

Section StepsPreserve.

Variable ext : Externals.

(** *** The trace is only ever continued *)

Lemma trace_os_remove path : preserves trace_extends (os_remove path).
Proof. unfold os_remove. preserving trace_side. Qed.

Lemma trace_cleanup path : preserves trace_extends (cleanup path).
Proof.
  unfold cleanup. apply preserves_try_except_PermissionError; try typeclasses eauto.
  - unfold os_path_exists. preserving trace_side.
  - unfold time_sleep. preserving trace_side.
Qed.

Lemma trace_get_gdrive_service : preserves trace_extends (get_gdrive_service ext).
Proof.
  unfold get_gdrive_service, acquire, refresh, run_flow, dump_token,
    os_getenv_GOOGLE_CREDENTIALS.
  preserving trace_side.
Qed.

Lemma trace_get_or_create_folder svc name :
  preserves trace_extends (get_or_create_folder ext svc name).
Proof.
  unfold get_or_create_folder, files_list, files_create_folder. preserving trace_side.
Qed.

Lemma trace_next_chunks n name parents : preserves trace_extends (next_chunks ext n name parents).
Proof.
  induction n as [|n IH]; simpl.
  - unfold last_chunk. preserving trace_side.
  - preserving trace_side.
Qed.

Lemma trace_upload_to_drive filename : preserves trace_extends (upload_to_drive ext filename).
Proof.
  unfold upload_to_drive.
  apply preserves_bind; [typeclasses eauto | apply trace_get_gdrive_service | intros service].
  apply preserves_bind; [typeclasses eauto | apply trace_get_or_create_folder | intros folder_id].
  unfold MediaFileUpload, os_path_exists, permissions_create.
  preserving trace_side; apply trace_next_chunks.
Qed.

(** *** Only folder creation, the last chunk and the permission call reach
    the account *)

Lemma drive_os_remove path : preserves same_drive (os_remove path).
Proof. unfold os_remove. preserving drive_side. Qed.

Lemma drive_cleanup path : preserves same_drive (cleanup path).
Proof.
  unfold cleanup. apply preserves_try_except_PermissionError; try typeclasses eauto.
  - unfold os_path_exists. preserving drive_side.
  - unfold time_sleep. preserving drive_side.
Qed.

Lemma drive_download o url : preserves same_drive (download ext o url).
Proof. unfold download. preserving drive_side. Qed.

Lemma drive_get_gdrive_service : preserves same_drive (get_gdrive_service ext).
Proof.
  unfold get_gdrive_service, acquire, refresh, run_flow, dump_token,
    os_getenv_GOOGLE_CREDENTIALS.
  preserving drive_side.
Qed.

Lemma grows_files_create_folder svc name :
  preserves drive_grows (files_create_folder ext svc name).
Proof.
  intros w r w'. unfold files_create_folder, bind, emit, gets, modify, raise, ret.
  destruct (folder_create_fault ext); intros [= _ <-]; simpl.
  - apply same_drive_grows. reflexivity.
  - eexists. simpl. rewrite map_app. reflexivity.
Qed.

Lemma grows_get_or_create_folder svc name :
  preserves drive_grows (get_or_create_folder ext svc name).
Proof.
  unfold get_or_create_folder. apply preserves_bind; [typeclasses eauto | |].
  - apply (preserves_weaken same_drive); [exact same_drive_grows|].
    unfold files_list. preserving drive_side.
  - intros [|f files].
    + apply preserves_bind; [typeclasses eauto | apply grows_files_create_folder |].
      intros folder. apply preserves_ret; typeclasses eauto.
    + apply preserves_ret; typeclasses eauto.
Qed.

Lemma grows_last_chunk name parents : preserves drive_grows (last_chunk ext name parents).
Proof.
  intros w r w'. unfold last_chunk, bind, emit, gets, modify, raise, ret.
  destruct (upload_fault ext); intros [= _ <-]; simpl.
  - apply same_drive_grows. reflexivity.
  - eexists. simpl. rewrite map_app. reflexivity.
Qed.

Lemma grows_next_chunks n name parents : preserves drive_grows (next_chunks ext n name parents).
Proof.
  induction n as [|n IH]; simpl.
  - apply grows_last_chunk.
  - apply preserves_bind; [typeclasses eauto | | intros _; exact IH].
    apply preserves_emit. intros w. apply same_drive_grows. reflexivity.
Qed.

Lemma map_core_made_public file_id files :
  map df_core (map (fun f => if String.eqb (df_id f) file_id then made_public f else f) files)
  = map df_core files.
Proof.
  induction files as [|f files IH]; [reflexivity|]. simpl. rewrite IH.
  destruct (String.eqb (df_id f) file_id); reflexivity.
Qed.

Lemma grows_permissions_create svc file_id :
  preserves drive_grows (permissions_create ext svc file_id).
Proof.
  intros w r w'. unfold permissions_create, bind, emit, modify, raise.
  destruct (permission_fault ext); intros [= _ <-]; simpl.
  - apply same_drive_grows. reflexivity.
  - exists []. rewrite app_nil_r. apply map_core_made_public.
Qed.

Lemma grows_upload_to_drive filename : preserves drive_grows (upload_to_drive ext filename).
Proof.
  unfold upload_to_drive.
  apply preserves_bind; [typeclasses eauto | | intros service].
  { apply (preserves_weaken same_drive); [exact same_drive_grows|].
    apply drive_get_gdrive_service. }
  apply preserves_bind; [typeclasses eauto | apply grows_get_or_create_folder | intros folder_id].
  apply preserves_bind; [typeclasses eauto | | intros _].
  { apply (preserves_weaken same_drive); [exact same_drive_grows|].
    unfold MediaFileUpload, os_path_exists. preserving drive_side. }
  apply preserves_bind; [typeclasses eauto | apply grows_next_chunks | intros response].
  apply preserves_bind; [typeclasses eauto | apply grows_permissions_create | intros _].
  apply preserves_ret; typeclasses eauto.
Qed.

End StepsPreserve.

Lemma run_trace_extends ext data w r w' : Run ext data w r w' -> trace_extends w w'.
Proof.
  assert (Hdl : forall url written, trace_extends w (after_download url written w)).
  { intros. eexists. reflexivity. }
  intros [ | | | | url written prepared e w2 _ _ _ _ Hup
           | url written prepared response w2 e w3 _ _ _ _ Hup Hclean
           | url written prepared response w2 w3 _ _ _ _ Hup Hclean ];
    try reflexivity; try apply Hdl.
  - etransitivity; [apply Hdl | exact (trace_upload_to_drive _ _ _ _ _ Hup)].
  - etransitivity; [apply Hdl|].
    etransitivity; [exact (trace_upload_to_drive _ _ _ _ _ Hup)|].
    exact (trace_cleanup _ _ _ _ Hclean).
  - etransitivity; [apply Hdl|].
    etransitivity; [exact (trace_upload_to_drive _ _ _ _ _ Hup)|].
    exact (trace_cleanup _ _ _ _ Hclean).
Qed.

Lemma run_after_extraction ext data w r w' url :
  Run ext data w r w' ->
  py_get data "url" = inr url -> truthy url = true ->
  exists others, trace w' = (trace w ++ EvExtractInfo url :: others)%list.
Proof.
  assert (Hfrom : forall written w2,
             trace_extends (after_download url written w) w2 ->
             exists others, trace w2 = (trace w ++ EvExtractInfo url :: others)%list).
  { intros written w2 [l Hl]. exists l. rewrite Hl. simpl. rewrite <- app_assoc. reflexivity. }
  intros HR Hget Htruthy.
  destruct HR as [ Hno | u Hu Hf | u written e Hu _ _ | u written prepared Hu _ _ _
                 | u written prepared e w2 Hu _ _ _ Hup
                 | u written prepared response w2 e w3 Hu _ _ _ Hup Hclean
                 | u written prepared response w2 w3 Hu _ _ _ Hup Hclean ].
  - destruct data; simpl in *; congruence.
  - congruence.
  - assert (u = url) as -> by congruence. apply (Hfrom written). reflexivity.
  - assert (u = url) as -> by congruence. apply (Hfrom written). reflexivity.
  - assert (u = url) as -> by congruence. apply (Hfrom written).
    exact (trace_upload_to_drive _ _ _ _ _ Hup).
  - assert (u = url) as -> by congruence. apply (Hfrom written).
    etransitivity; [exact (trace_upload_to_drive _ _ _ _ _ Hup)|].
    exact (trace_cleanup _ _ _ _ Hclean).
  - assert (u = url) as -> by congruence. apply (Hfrom written).
    etransitivity; [exact (trace_upload_to_drive _ _ _ _ _ Hup)|].
    exact (trace_cleanup _ _ _ _ Hclean).
Qed.

(** X2.  The validation of line 75 is a truth test, not a type test: an
    object body is answered 400 exactly when its [url] is missing or falsy
    ([null], [false], [0], the empty string, an empty list or object), and
    then nothing at all was done.  With any other value, a string or not,
    the first thing the handler does is to hand it to the extraction tool. *)
Theorem rejected_iff_falsy_url :
  forall ext d w resp w',
    video_to_drive ext (PyDict d) w = (inr resp, w') ->
    (status resp = 400 <-> truthy (default PyNone (dict_lookup d "url")) = false)
    /\ (status resp = 400 -> w' = w)
    /\ (status resp <> 400 ->
        exists others,
          trace w'
          = (trace w ++ EvExtractInfo (default PyNone (dict_lookup d "url")) :: others)%list).
Proof.
  intros ext d w resp w' Hrun.
  pose proof (video_to_drive_run _ _ _ _ _ Hrun) as HR.
  set (url := default PyNone (dict_lookup d "url")) in *.
  assert (Hget : py_get (PyDict d) "url" = inr url) by reflexivity.
  destruct (truthy url) eqn:Htruthy.
  - assert (Hne : status resp <> 400).
    { inversion HR; subst; simpl; try discriminate; congruence. }
    split; [split; [contradiction | discriminate]|]. split; [contradiction|].
    intros _. exact (run_after_extraction _ _ _ _ _ _ HR Hget Htruthy).
  - assert (Hrej : resp = jsonify_error 400 "❌ YouTube URL required" /\ w' = w).
    { rewrite (falsy_url_400 ext d w Htruthy) in Hrun. injection Hrun as <- <-. split; reflexivity. }
    destruct Hrej as [-> ->]. split; [split; reflexivity|]. split; [reflexivity|].
    intros Hne. exfalso. apply Hne. reflexivity.
Qed.

Lemma rejected_iff_falsy_url_witness :
  (status (jsonify_error 400 "❌ YouTube URL required") = 400
   <-> truthy (default PyNone (dict_lookup [("url", PyInt 0)] "url")) = false)
  /\ (status (jsonify_error 400 "❌ YouTube URL required") = 400
      -> Scenario.cold = Scenario.cold).
Proof.
  assert (Hrun : video_to_drive Scenario.healthy (PyDict [("url", PyInt 0)]) Scenario.cold
                 = (inr (jsonify_error 400 "❌ YouTube URL required"), Scenario.cold))
    by reflexivity.
  destruct (rejected_iff_falsy_url _ _ _ _ _ Hrun) as (Hiff & Hsame & _).
  split; [exact Hiff | exact Hsame].
Defined.

(** X3.  When the extraction tool raises, the request is answered 500 with
    the tool's message; nothing else is called, and whatever the tool had
    already written stays on disk. *)
Theorem tool_exception_is_500 :
  forall ext data w url written e,
    py_get data "url" = inr url ->
    truthy url = true ->
    ydl_run ext outtmpl url = (written, inl e) ->
    video_to_drive ext data w
    = (inr (jsonify_error 500 (exc_str e)), after_download url written w)
    /\ trace (after_download url written w) = (trace w ++ [EvExtractInfo url])%list
    /\ disk (after_download url written w) = disk w ∪ written
    /\ drive (after_download url written w) = drive w.
Proof.
  intros ext data w url written e Hget Htruthy Htool.
  split; [|repeat split].
  rewrite (validated _ _ _ _ Hget Htruthy). unfold try_except, try_body.
  rewrite (bind_raises _ _ _ _ _ (download_raises _ _ _ _ _ w Htool)). reflexivity.
Qed.

Lemma tool_exception_is_500_witness :
  video_to_drive Scenario.tool_fails Scenario.request Scenario.warm
  = (inr (jsonify_error 500 "ERROR: Video unavailable"),
     after_download Scenario.song_url {["downloads/abc.mp4.part"]} Scenario.warm).
Proof.
  exact (proj1 (tool_exception_is_500 Scenario.tool_fails Scenario.request Scenario.warm
                  Scenario.song_url {["downloads/abc.mp4.part"]} Scenario.unavailable
                  eq_refl eq_refl eq_refl)).
Defined.

(** ** Cleanup, case by case *)

Lemma cleanup_cases path w r w' :
  cleanup path w = (r, w') ->
  ((path ∉ disk w) /\ r = inr tt /\ w' = w)
  \/ (path ∈ disk w /\ is_locked w path = false /\ r = inr tt
      /\ w' = set_disk (disk w ∖ {[path]}) (record (EvRemove path) w))
  \/ (path ∈ disk w /\ is_locked w path = true
      /\ is_locked (set_now (now w + 2) w) path = false /\ r = inr tt
      /\ w' = set_disk (disk w ∖ {[path]}) (after_retry path w))
  \/ (path ∈ disk w /\ is_locked w path = true
      /\ is_locked (set_now (now w + 2) w) path = true /\ r = inl (file_in_use path)
      /\ w' = after_retry path w).
Proof.
  destruct (decide (path ∈ disk w)) as [Hin|Hout].
  2:{ rewrite (cleanup_absent _ _ Hout). intros [= <- <-]. left. auto. }
  destruct (is_locked w path) eqn:Hl.
  2:{ rewrite (cleanup_free _ _ Hin Hl). intros [= <- <-]. right. left. auto. }
  rewrite (cleanup_locked _ _ Hin Hl).
  set (w2 := set_now _ _).
  assert (Hin2 : path ∈ disk w2) by exact Hin.
  assert (Hsame : is_locked w2 path = is_locked (set_now (now w + 2) w) path) by reflexivity.
  destruct (is_locked w2 path) eqn:Hl2.
  - rewrite (os_remove_locked _ _ Hin2 Hl2). intros [= <- <-]. right. right. right. auto.
  - rewrite (os_remove_free _ _ Hin2 Hl2). intros [= <- <-]. right. right. left. auto.
Qed.

Lemma upload_opens_file ext filename w response w2 :
  upload_to_drive ext filename w = (inr response, w2) ->
  In (EvMediaOpen filename) (trace w2).
Proof.
  unfold upload_to_drive. intros Hrun. unfold bind at 1 in Hrun.
  destruct (get_gdrive_service ext w) as [[e|service] wa]; [discriminate|].
  unfold bind at 1 in Hrun.
  destruct (get_or_create_folder ext service "YouTubeSong" wa) as [[e|folder_id] wb];
    [discriminate|].
  unfold bind at 1 in Hrun.
  destruct (decide (filename ∈ disk wb)) as [Hin|Hout].
  2:{ exfalso. unfold MediaFileUpload, bind, emit, os_path_exists, gets in Hrun.
      simpl in Hrun. rewrite bool_decide_eq_false_2 in Hrun by exact Hout. discriminate. }
  rewrite (MediaFileUpload_present _ _ Hin) in Hrun.
  assert (Hrest : preserves trace_extends
                    (let* response :=
                       next_chunks ext (upload_chunks ext) (basename filename) [folder_id] in
                     permissions_create ext service (resp_id response);; ret response)).
  { unfold permissions_create. preserving trace_side; apply trace_next_chunks. }
  destruct (Hrest _ _ _ Hrun) as [l ->]. simpl.
  apply in_or_app. left. apply in_or_app. right. left. reflexivity.
Qed.

(** ** C3: what a successful request deletes *)

(** C3, counterexample.  Two requests after which a file this service
    downloaded is still on disk when the response is produced.  In the
    first the last chunk of the upload is refused: the answer is 500 and no
    deletion was requested.  In the second the tool leaves
    [downloads/abc.webm] while an older [downloads/abc.mp4] is on disk: the
    answer is 200, the older file was uploaded and deleted, and the file
    just downloaded stays. *)
Lemma cleanup_misses_files :
  (fst (video_to_drive Scenario.upload_breaks Scenario.request Scenario.warm)
   = inr (jsonify_error 500 (exc_str Scenario.http_503))
   /\ ~ In (EvRemove Scenario.song_path)
          (trace (snd (video_to_drive Scenario.upload_breaks Scenario.request Scenario.warm)))
   /\ ~ (Scenario.song_path
         ∉ disk (snd (video_to_drive Scenario.upload_breaks Scenario.request Scenario.warm))))
  /\ (fst (video_to_drive Scenario.tool_leaves_webm Scenario.request Scenario.older_copy)
      = inr (jsonify_success Scenario.song_path (mkUploadResponse "ff" (webViewLink "ff")))
      /\ fst (ydl_run Scenario.tool_leaves_webm outtmpl Scenario.song_url)
         = {["downloads/abc.webm"]}
      /\ ~ ("downloads/abc.webm"
            ∉ disk (snd (video_to_drive Scenario.tool_leaves_webm Scenario.request
                           Scenario.older_copy)))).
Proof.
  split; (split; [vm_compute; reflexivity|]); split.
  - vm_compute. intuition discriminate.
  - intros Habs. apply Habs. computed_present.
  - reflexivity.
  - intros Habs. apply Habs. computed_present.
Qed.

(** C3, as the code has it.  A request answered with the success response
    went through validation, download and upload; the file at the computed
    path (the name the tool reported, with the extension normalized) was on
    disk after the download, it is the file that was uploaded, and it is not
    on disk any more when the response is produced.  Nothing else was
    deleted: every other file, those the tool wrote included, is still
    there.  A request whose upload stage (credentials, folder, transfer or
    permission) raises is answered 500 with the file at the computed path
    still on disk: cleanup is not run on that path. *)
Theorem local_file_deleted_on_success :
  forall ext data w,
    (forall resp w',
        video_to_drive ext data w = (inr resp, w') ->
        status resp = 200 ->
        exists url written prepared response,
          py_get data "url" = inr url
          /\ ydl_run ext outtmpl url = (written, inr prepared)
          /\ resp = jsonify_success (normalize_filename prepared) response
          /\ In (EvMediaOpen (normalize_filename prepared)) (trace w')
          /\ normalize_filename prepared ∈ disk w ∪ written
          /\ (normalize_filename prepared ∉ disk w')
          /\ (forall p, p <> normalize_filename prepared ->
                        (p ∈ disk w' <-> p ∈ disk w ∪ written)))
    /\ (forall url written prepared e w2,
          py_get data "url" = inr url ->
          truthy url = true ->
          ydl_run ext outtmpl url = (written, inr prepared) ->
          normalize_filename prepared ∈ disk w ∪ written ->
          upload_to_drive ext (normalize_filename prepared) (after_download url written w)
          = (inl e, w2) ->
          video_to_drive ext data w = (inr (jsonify_error 500 (exc_str e)), w2)
          /\ normalize_filename prepared ∈ disk w2).
Proof.
  intros ext data w. split.
  - intros resp w' Hrun H200.
    pose proof (video_to_drive_run _ _ _ _ _ Hrun) as HR.
    inversion HR as [ | | | | |
                    | url written prepared response w2 w3 Hget Htruthy Htool Hin Hup Hclean ];
      subst; try discriminate H200.
    set (filename := normalize_filename prepared) in *.
    destruct (keeps_upload_to_drive _ _ _ _ _ Hup) as (Hdisk & _). simpl in Hdisk.
    assert (Hin2 : filename ∈ disk w2) by (rewrite Hdisk; exact Hin).
    assert (Hopened : In (EvMediaOpen filename) (trace w')).
    { destruct (trace_cleanup _ _ _ _ Hclean) as [l ->].
      apply in_or_app. left. exact (upload_opens_file _ _ _ _ _ Hup). }
    assert (Hdisk' : disk w' = disk w2 ∖ {[filename]}).
    { destruct (cleanup_cases _ _ _ _ Hclean)
        as [(Hout & _) | [(_ & _ & _ & ->) | [(_ & _ & _ & _ & ->) | (_ & _ & _ & [=] & _)]]];
        [contradiction | reflexivity | reflexivity]. }
    exists url, written, prepared, response.
    split; [exact Hget|]. split; [exact Htool|]. split; [reflexivity|].
    split; [exact Hopened|]. split; [exact Hin|]. rewrite Hdisk', Hdisk. split.
    + intros [_ Hn]%elem_of_difference. apply Hn, elem_of_singleton. reflexivity.
    + intros p Hp. rewrite elem_of_difference, elem_of_singleton. tauto.
  - intros url written prepared e w2 Hget Htruthy Htool Hin Hup. split.
    + rewrite (validated _ _ _ _ Hget Htruthy). unfold try_except.
      rewrite (try_body_present _ _ _ _ _ Htool Hin).
      rewrite (bind_raises _ _ _ _ _ Hup). reflexivity.
    + destruct (keeps_upload_to_drive ext _ _ _ _ Hup) as (Hdisk & _).
      rewrite Hdisk. exact Hin.
Qed.

Lemma local_file_deleted_on_success_witness :
  (normalize_filename Scenario.song_path
   ∉ disk (snd (video_to_drive Scenario.healthy Scenario.request Scenario.warm)))
  /\ ("downloads/abc.webm"
      ∈ disk (snd (video_to_drive Scenario.tool_leaves_webm Scenario.request
                     Scenario.older_copy)))
  /\ fst (video_to_drive Scenario.upload_breaks Scenario.request Scenario.warm)
     = inr (jsonify_error 500 (exc_str Scenario.http_503)).
Proof.
  split; [|split].
  - destruct (local_file_deleted_on_success Scenario.healthy Scenario.request Scenario.warm)
      as [Hdone _].
    assert (Hrun : video_to_drive Scenario.healthy Scenario.request Scenario.warm
                   = (inr (jsonify_success Scenario.song_path
                             (mkUploadResponse "ff" (webViewLink "ff"))),
                      snd (video_to_drive Scenario.healthy Scenario.request Scenario.warm)))
      by (vm_compute; reflexivity).
    destruct (Hdone _ _ Hrun eq_refl)
      as (url & written & prepared & response & _ & Htool & _ & _ & _ & Hgone & _).
    injection Htool as _ <-. exact Hgone.
  - destruct (local_file_deleted_on_success Scenario.tool_leaves_webm Scenario.request
                Scenario.older_copy) as [Hdone _].
    assert (Hrun : video_to_drive Scenario.tool_leaves_webm Scenario.request
                     Scenario.older_copy
                   = (inr (jsonify_success Scenario.song_path
                             (mkUploadResponse "ff" (webViewLink "ff"))),
                      snd (video_to_drive Scenario.tool_leaves_webm Scenario.request
                             Scenario.older_copy)))
      by (vm_compute; reflexivity).
    destruct (Hdone _ _ Hrun eq_refl)
      as (url & written & prepared & response & Hget & Htool & _ & _ & _ & _ & Hrest).
    injection Hget as <-. injection Htool as <- <-.
    apply Hrest; [discriminate | computed_present].
  - destruct (local_file_deleted_on_success Scenario.upload_breaks Scenario.request
                Scenario.warm) as [_ Hfail].
    assert (Hin : normalize_filename Scenario.song_path
                  ∈ disk Scenario.warm ∪ {[Scenario.song_path]}) by computed_present.
    assert (Hup : upload_to_drive Scenario.upload_breaks (normalize_filename Scenario.song_path)
                    (after_download Scenario.song_url {[Scenario.song_path]} Scenario.warm)
                  = (inl Scenario.http_503,
                     snd (upload_to_drive Scenario.upload_breaks Scenario.song_path
                            (after_download Scenario.song_url {[Scenario.song_path]}
                               Scenario.warm))))
      by (vm_compute; reflexivity).
    rewrite (proj1 (Hfail Scenario.song_url {[Scenario.song_path]} Scenario.song_path
                      Scenario.http_503 _ eq_refl eq_refl eq_refl Hin Hup)).
    reflexivity.
Defined.

(** X4.  Cleanup (lines 137-144) concerns one path only.  It requests at
    most two deletions, both of the path it is given, separated by the one
    sleep of exactly 2 units, which happens only after the first deletion
    was refused because the file is held.  No other file appears or
    disappears, and no lock is touched.  After a normal return the path is
    not on disk; when cleanup raises, it has deleted nothing. *)
Theorem cleanup_outcomes :
  forall path w r w',
    cleanup path w = (r, w') ->
    (trace w' = trace w
     \/ trace w' = (trace w ++ [EvRemove path])%list
     \/ trace w' = (trace w ++ [EvRemove path; EvSleep 2; EvRemove path])%list
        /\ is_locked w path = true /\ now w' = now w + 2)
    /\ (now w' = now w \/ now w' = now w + 2 /\ is_locked w path = true)
    /\ (forall p, p <> path -> (p ∈ disk w' <-> p ∈ disk w))
    /\ match r with
       | inr _ => path ∉ disk w'
       | inl _ => disk w' = disk w
       end
    /\ lock_until w' = lock_until w.
Proof.
  intros path w r w' Hrun.
  assert (Hgone : forall d : gset string,
             (path ∉ d ∖ {[path]}) /\ (forall p, p <> path -> (p ∈ d ∖ {[path]} <-> p ∈ d))).
  { intros d. split.
    - intros [_ Hn]%elem_of_difference. apply Hn, elem_of_singleton. reflexivity.
    - intros p Hp. rewrite elem_of_difference, elem_of_singleton. tauto. }
  assert (Hthree : forall w0,
             trace (after_retry path w0)
             = (trace w0 ++ [EvRemove path; EvSleep 2; EvRemove path])%list).
  { intros w0. simpl. rewrite <- !app_assoc. reflexivity. }
  destruct (cleanup_cases _ _ _ _ Hrun)
    as [(Hout & -> & ->) | [(Hin & Hl & -> & ->) | [(Hin & Hl & Hl2 & -> & ->)
       | (Hin & Hl & Hl2 & -> & ->)]]].
  - split; [left; reflexivity|]. split; [left; reflexivity|].
    split; [tauto|]. split; [exact Hout | reflexivity].
  - split; [right; left; reflexivity|]. split; [left; reflexivity|].
    split; [exact (proj2 (Hgone (disk w)))|]. split; [exact (proj1 (Hgone (disk w))) | reflexivity].
  - split; [right; right; split; [apply Hthree | split; [exact Hl | reflexivity]]|].
    split; [right; split; [reflexivity | exact Hl]|].
    split; [exact (proj2 (Hgone (disk w)))|]. split; [exact (proj1 (Hgone (disk w))) | reflexivity].
  - split; [right; right; split; [apply Hthree | split; [exact Hl | reflexivity]]|].
    split; [right; split; [reflexivity | exact Hl]|].
    split; [tauto|]. split; reflexivity.
Qed.

Lemma cleanup_outcomes_witness :
  (Scenario.song_path
   ∉ disk (snd (cleanup Scenario.song_path
                  (after_download Scenario.song_url {[Scenario.song_path]}
                     (Scenario.held_until 1)))))
  /\ disk (snd (cleanup Scenario.song_path
                  (after_download Scenario.song_url {[Scenario.song_path]}
                     (Scenario.held_until 5))))
     = disk (after_download Scenario.song_url {[Scenario.song_path]} (Scenario.held_until 5)).
Proof.
  split.
  - assert (Hrun : cleanup Scenario.song_path
                     (after_download Scenario.song_url {[Scenario.song_path]}
                        (Scenario.held_until 1))
                   = (inr tt,
                      snd (cleanup Scenario.song_path
                             (after_download Scenario.song_url {[Scenario.song_path]}
                                (Scenario.held_until 1)))))
      by (vm_compute; reflexivity).
    destruct (cleanup_outcomes _ _ _ _ Hrun) as (_ & _ & _ & Hgone & _). exact Hgone.
  - assert (Hrun : cleanup Scenario.song_path
                     (after_download Scenario.song_url {[Scenario.song_path]}
                        (Scenario.held_until 5))
                   = (inl (file_in_use Scenario.song_path),
                      snd (cleanup Scenario.song_path
                             (after_download Scenario.song_url {[Scenario.song_path]}
                                (Scenario.held_until 5)))))
      by (vm_compute; reflexivity).
    destruct (cleanup_outcomes _ _ _ _ Hrun) as (_ & _ & _ & Hkept & _). exact Hkept.
Defined.

(** ** What a request can change *)

(** X5.  Whatever a request does and however it ends, the Drive account
    only grows: every object that was there is still there, at the same
    place in the listing, with the same identifier, name, type, trash state
    and parents.  The handler creates objects and adds a grant; it never
    deletes, renames, moves or trashes one. *)
Theorem drive_only_grows :
  forall ext data w r w',
    video_to_drive ext data w = (r, w') ->
    exists added, map df_core (drive w') = (map df_core (drive w) ++ added)%list.
Proof.
  intros ext data w r w' Hrun.
  assert (Hdl : forall url written, drive_grows w (after_download url written w)).
  { intros. apply same_drive_grows. reflexivity. }
  change (drive_grows w w').
  destruct (video_to_drive_run _ _ _ _ _ Hrun)
    as [ | | | | url written prepared e w2 _ _ _ _ Hup
       | url written prepared response w2 e w3 _ _ _ _ Hup Hclean
       | url written prepared response w2 w3 _ _ _ _ Hup Hclean ];
    try reflexivity; try apply Hdl.
  - etransitivity; [apply Hdl | exact (grows_upload_to_drive _ _ _ _ _ Hup)].
  - etransitivity; [apply Hdl|].
    etransitivity; [exact (grows_upload_to_drive _ _ _ _ _ Hup)|].
    apply same_drive_grows. exact (drive_cleanup _ _ _ _ Hclean).
  - etransitivity; [apply Hdl|].
    etransitivity; [exact (grows_upload_to_drive _ _ _ _ _ Hup)|].
    apply same_drive_grows. exact (drive_cleanup _ _ _ _ Hclean).
Qed.

Lemma drive_only_grows_witness :
  exists added,
    map df_core (drive (snd (video_to_drive Scenario.healthy Scenario.request Scenario.busy)))
    = (map df_core (drive Scenario.busy) ++ added)%list.
Proof.
  exact (drive_only_grows Scenario.healthy Scenario.request Scenario.busy
           (fst (video_to_drive Scenario.healthy Scenario.request Scenario.busy))
           (snd (video_to_drive Scenario.healthy Scenario.request Scenario.busy))
           (surjective_pairing _)).
Defined.

(** The effect of a run on [disk] (the working directory, token.pickle
    apart) and on the locks. *)
Lemma disk_effects :
  forall ext data w r w',
    video_to_drive ext data w = (r, w') ->
    (forall p, p ∈ disk w' ->
       p ∈ disk w
       \/ exists url, py_get data "url" = inr url /\ p ∈ fst (ydl_run ext outtmpl url))
    /\ (forall p, p ∈ disk w -> p ∉ disk w' ->
          exists url prepared response,
            py_get data "url" = inr url
            /\ snd (ydl_run ext outtmpl url) = inr prepared
            /\ p = normalize_filename prepared
            /\ r = inr (jsonify_success p response))
    /\ lock_until w' = lock_until w.
Proof.
  intros ext data w r w' Hrun.
  assert (Hadd : forall url written outcome p,
             py_get data "url" = inr url -> ydl_run ext outtmpl url = (written, outcome) ->
             p ∈ disk w ∪ written ->
             p ∈ disk w
             \/ exists url, py_get data "url" = inr url /\ p ∈ fst (ydl_run ext outtmpl url)).
  { intros url written outcome p Hget Htool [Hp|Hp]%elem_of_union; [left; exact Hp|].
    right. exists url. rewrite Htool. split; [exact Hget | exact Hp]. }
  assert (Hkeep : forall written p, p ∈ disk w -> p ∈ disk w ∪ written).
  { intros written p Hp. apply elem_of_union. left. exact Hp. }
  destruct (video_to_drive_run _ _ _ _ _ Hrun)
    as [ | | url written e Hget _ Htool | url written prepared Hget _ Htool _
       | url written prepared e w2 Hget _ Htool _ Hup
       | url written prepared response w2 e w3 Hget _ Htool _ Hup Hclean
       | url written prepared response w2 w3 Hget _ Htool _ Hup Hclean ].
  - split; [auto|]. split; [contradiction | reflexivity].
  - split; [auto|]. split; [contradiction | reflexivity].
  - split; [intros p; exact (Hadd _ _ _ p Hget Htool)|].
    split; [|reflexivity]. intros p Hp Hn. exfalso. exact (Hn (Hkeep written p Hp)).
  - split; [intros p; exact (Hadd _ _ _ p Hget Htool)|].
    split; [|reflexivity]. intros p Hp Hn. exfalso. exact (Hn (Hkeep written p Hp)).
  - destruct (keeps_upload_to_drive _ _ _ _ _ Hup) as (Hd & Hk & _). simpl in Hd, Hk.
    split; [intros p; rewrite Hd; exact (Hadd _ _ _ p Hget Htool)|].
    split; [|exact Hk]. intros p Hp Hn. exfalso. apply Hn. rewrite Hd.
    exact (Hkeep written p Hp).
  - destruct (keeps_upload_to_drive _ _ _ _ _ Hup) as (Hd & Hk & _). simpl in Hd, Hk.
    destruct (cleanup_cases _ _ _ _ Hclean)
      as [(_ & [=] & _) | [(_ & _ & [=] & _) | [(_ & _ & _ & [=] & _)
         | (_ & _ & _ & _ & ->)]]].
    split; [intros p; simpl; rewrite Hd; exact (Hadd _ _ _ p Hget Htool)|].
    split; [|exact Hk]. intros p Hp Hn. exfalso. apply Hn. simpl. rewrite Hd.
    exact (Hkeep written p Hp).
  - destruct (keeps_upload_to_drive _ _ _ _ _ Hup) as (Hd & Hk & _). simpl in Hd, Hk.
    assert (Hsub : forall p, p ∈ disk w3 -> p ∈ disk w2).
    { intros p. destruct (cleanup_cases _ _ _ _ Hclean)
        as [(_ & _ & ->) | [(_ & _ & _ & ->) | [(_ & _ & _ & _ & ->)
           | (_ & _ & _ & [=] & _)]]]; simpl; try tauto;
        intros [Hp _]%elem_of_difference; exact Hp. }
    assert (Hrest : forall p, p ∈ disk w2 -> p <> normalize_filename prepared -> p ∈ disk w3).
    { intros p Hp Hne. destruct (cleanup_cases _ _ _ _ Hclean)
        as [(_ & _ & ->) | [(_ & _ & _ & ->) | [(_ & _ & _ & _ & ->)
           | (_ & _ & _ & [=] & _)]]]; simpl; try exact Hp;
        apply elem_of_difference; (split; [exact Hp|]);
        intros ->%elem_of_singleton; apply Hne; reflexivity. }
    assert (Hk3 : lock_until w3 = lock_until w2).
    { destruct (cleanup_cases _ _ _ _ Hclean)
        as [(_ & _ & ->) | [(_ & _ & _ & ->) | [(_ & _ & _ & _ & ->)
           | (_ & _ & _ & [=] & _)]]]; reflexivity. }
    split; [intros p Hp; apply Hsub in Hp; rewrite Hd in Hp; exact (Hadd _ _ _ p Hget Htool Hp)|].
    split; [|rewrite Hk3; exact Hk].
    intros p Hp Hn. exists url, prepared, response. rewrite Htool.
    destruct (decide (p = normalize_filename prepared)) as [->|Hne]; [auto|].
    exfalso. apply Hn. apply Hrest; [|exact Hne]. rewrite Hd. exact (Hkeep written p Hp).
Qed.

(** X6.  On the local side, token.pickle apart (lines 50-51 may create or
    rewrite it), a request adds at most the files the tool wrote and removes
    at most one file: the one at the computed path (the name the tool
    reported, with the extension normalized), and only when it answers 200.
    That file is the one it uploaded, whether this request's tool run wrote
    it or it was there before; no file at another path is ever deleted, and
    the handles held by others are left alone. *)
Theorem only_the_computed_path_is_deleted :
  forall ext data w r w',
    video_to_drive ext data w = (r, w') ->
    (forall p, p ∈ disk w' -> p <> "token.pickle" ->
       p ∈ disk w
       \/ exists url, py_get data "url" = inr url /\ p ∈ fst (ydl_run ext outtmpl url))
    /\ (forall p, p ∈ disk w -> p ∉ disk w' ->
          exists url prepared response,
            py_get data "url" = inr url
            /\ snd (ydl_run ext outtmpl url) = inr prepared
            /\ p = normalize_filename prepared
            /\ r = inr (jsonify_success p response))
    /\ lock_until w' = lock_until w.
Proof.
  intros ext data w r w' Hrun.
  destruct (disk_effects ext data w r w' Hrun) as (Hadd & Hdel & Hlocks).
  split; [|split; [exact Hdel | exact Hlocks]].
  intros p Hp _. exact (Hadd p Hp).
Qed.

Lemma only_the_computed_path_is_deleted_witness :
  ~ ("downloads/other.mp4"
     ∉ disk (snd (video_to_drive Scenario.healthy Scenario.request Scenario.busy))).
Proof.
  destruct (only_the_computed_path_is_deleted Scenario.healthy Scenario.request Scenario.busy
              (fst (video_to_drive Scenario.healthy Scenario.request Scenario.busy))
              (snd (video_to_drive Scenario.healthy Scenario.request Scenario.busy))
              (surjective_pairing _)) as (_ & Hdel & _).
  intros Hgone.
  assert (Hwas : "downloads/other.mp4" ∈ disk Scenario.busy) by computed_present.
  destruct (Hdel _ Hwas Hgone) as (url & prepared & response & Hget & Htool & Hp & _).
  injection Hget as <-. injection Htool as <-. discriminate Hp.
Defined.

(** ** Folder resolution, for names that need no escaping *)

Section Resolved.

Variable ext : Externals.

Lemma folders_named_spec name files f :
  f ∈ folders_named name files ->
  f ∈ files /\ df_name f = name /\ df_mimeType f = folder_mimeType /\ df_trashed f = false.
Proof.
  unfold folders_named. intros [Hm Hin]%list_elem_of_filter. split; [exact Hin|].
  unfold DriveQuery.matches in Hm. simpl in Hm.
  apply Is_true_true in Hm.
  apply andb_true_iff in Hm as [[Hn Hmime]%andb_true_iff Ht].
  apply String.eqb_eq in Hn, Hmime. split; [exact Hn|]. split; [exact Hmime|].
  destruct (df_trashed f); [discriminate | reflexivity].
Qed.

Lemma folder_resolved_inv svc name w folder_id w' :
  plain_name name = true ->
  get_or_create_folder ext svc name w = (inr folder_id, w') ->
  exists f,
    f ∈ drive w' /\ df_id f = folder_id /\ df_name f = name
    /\ df_mimeType f = folder_mimeType /\ df_trashed f = false.
Proof.
  intros Hplain Hrun.
  destruct (list_fault ext) as [e|] eqn:Hlist.
  { unfold get_or_create_folder, files_list, bind, emit in Hrun. rewrite Hlist in Hrun.
    discriminate. }
  destruct (folders_named name (drive w)) as [|f rest] eqn:Hfound.
  - destruct (folder_create_fault ext) as [e|] eqn:Hcreate.
    { unfold get_or_create_folder in Hrun.
      rewrite (bind_returns _ _ _ _ _ (files_list_plain ext svc name w Hplain Hlist)) in Hrun.
      rewrite Hfound in Hrun.
      unfold files_create_folder, bind, emit in Hrun. rewrite Hcreate in Hrun. discriminate. }
    rewrite (folder_created ext svc name w Hplain Hlist Hcreate Hfound) in Hrun.
    injection Hrun as <- <-.
    exists (mkDriveFile (new_id ext (drive w)) name folder_mimeType false [] false).
    split; [|repeat split; reflexivity].
    simpl. apply elem_of_app. right. apply list_elem_of_singleton. reflexivity.
  - rewrite (folder_found ext svc name w f rest Hplain Hlist Hfound) in Hrun.
    injection Hrun as <- <-. exists f.
    assert (Hf : f ∈ folders_named name (drive w)) by (rewrite Hfound; left).
    destruct (folders_named_spec _ _ _ Hf) as (Hin & Hn & Hm & Ht).
    split; [exact Hin|]. split; [reflexivity|]. split; [exact Hn|]. split; [exact Hm | exact Ht].
Qed.

End Resolved.

(** X7.  For a folder name without quote or backslash, whenever the
    resolver returns an identifier, the account then holds a folder with
    that identifier and exactly that name which is not trashed: trashed
    folders and objects of another type with the same name are never
    returned.  The account either is as before (folder found) or has one
    more object, that folder. *)
Theorem resolved_folder_exists :
  forall ext svc name w folder_id w',
    plain_name name = true ->
    get_or_create_folder ext svc name w = (inr folder_id, w') ->
    (exists f,
        f ∈ drive w' /\ df_id f = folder_id /\ df_name f = name
        /\ df_mimeType f = folder_mimeType /\ df_trashed f = false)
    /\ (drive w' = drive w
        \/ folders_named name (drive w) = []
           /\ drive w'
              = (drive w ++ [mkDriveFile folder_id name folder_mimeType false [] false])%list).
Proof.
  intros ext svc name w folder_id w' Hplain Hrun.
  split; [exact (folder_resolved_inv ext svc name w folder_id w' Hplain Hrun)|].
  destruct (list_fault ext) as [e|] eqn:Hlist.
  { unfold get_or_create_folder, files_list, bind, emit in Hrun. rewrite Hlist in Hrun.
    discriminate. }
  destruct (folders_named name (drive w)) as [|f rest] eqn:Hfound.
  - destruct (folder_create_fault ext) as [e|] eqn:Hcreate.
    { unfold get_or_create_folder in Hrun.
      rewrite (bind_returns _ _ _ _ _ (files_list_plain ext svc name w Hplain Hlist)) in Hrun.
      rewrite Hfound in Hrun.
      unfold files_create_folder, bind, emit in Hrun. rewrite Hcreate in Hrun. discriminate. }
    rewrite (folder_created ext svc name w Hplain Hlist Hcreate Hfound) in Hrun.
    injection Hrun as <- <-. right. split; reflexivity.
  - rewrite (folder_found ext svc name w f rest Hplain Hlist Hfound) in Hrun.
    injection Hrun as <- <-. left. reflexivity.
Qed.

Lemma resolved_folder_exists_witness :
  exists f,
    f ∈ drive (snd (get_or_create_folder Scenario.healthy
                      (mkService (Some Scenario.creds_fresh)) "YouTubeSong" Scenario.busy))
    /\ df_id f = "F2" /\ df_name f = "YouTubeSong"
    /\ df_mimeType f = folder_mimeType /\ df_trashed f = false.
Proof.
  assert (Hrun : get_or_create_folder Scenario.healthy
                   (mkService (Some Scenario.creds_fresh)) "YouTubeSong" Scenario.busy
                 = (inr "F2",
                    snd (get_or_create_folder Scenario.healthy
                           (mkService (Some Scenario.creds_fresh)) "YouTubeSong"
                           Scenario.busy)))
    by (vm_compute; reflexivity).
  exact (proj1 (resolved_folder_exists Scenario.healthy
                  (mkService (Some Scenario.creds_fresh)) "YouTubeSong" Scenario.busy "F2" _
                  eq_refl Hrun)).
Defined.

(** X8.  For a folder name without quote or backslash and a provider that
    answers the listing: if a non-trashed folder of that name exists, the
    first one in listing order is returned and nothing is created, on a
    second call as on the first; if none exists and creation is not
    refused, a folder of that name is created at the end of the listing and
    its new identifier returned. *)
Theorem plain_folder_resolution :
  forall ext svc name w,
    plain_name name = true ->
    list_fault ext = None ->
    (forall f rest,
        folders_named name (drive w) = f :: rest ->
        exists w1 w2,
          get_or_create_folder ext svc name w = (inr (df_id f), w1)
          /\ get_or_create_folder ext svc name w1 = (inr (df_id f), w2)
          /\ drive w1 = drive w /\ drive w2 = drive w)
    /\ (folder_create_fault ext = None ->
        folders_named name (drive w) = [] ->
        exists w1,
          get_or_create_folder ext svc name w = (inr (new_id ext (drive w)), w1)
          /\ drive w1
             = (drive w
                ++ [mkDriveFile (new_id ext (drive w)) name folder_mimeType false [] false])%list).
Proof.
  intros ext svc name w Hplain Hok.
  exact (folder_resolution_plain_names ext svc name w Hplain Hok).
Qed.

Lemma plain_folder_resolution_witness :
  exists w1 w2,
    get_or_create_folder Scenario.healthy (mkService (Some Scenario.creds_fresh))
      "YouTubeSong" Scenario.busy = (inr "F2", w1)
    /\ get_or_create_folder Scenario.healthy (mkService (Some Scenario.creds_fresh))
         "YouTubeSong" w1 = (inr "F2", w2)
    /\ drive w1 = drive Scenario.busy /\ drive w2 = drive Scenario.busy.
Proof.
  exact (proj1 (plain_folder_resolution Scenario.healthy
                  (mkService (Some Scenario.creds_fresh)) "YouTubeSong" Scenario.busy
                  eq_refl eq_refl)
           Scenario.songs_folder [] ltac:(vm_compute; reflexivity)).
Defined.

(** ** Failures of the folder calls *)

(** X9.  When the listing call fails, the resolver raises that failure for
    any folder name and creates nothing; when the listing is empty and the
    creation call fails, it raises that failure and the account is as
    before.  In the handler a failed listing is answered 500 with the
    failure's message, before the file is opened for upload. *)
Theorem folder_call_failures :
  forall ext svc name w e,
    (list_fault ext = Some e ->
     get_or_create_folder ext svc name w
     = (inl e, record (EvFilesList (folder_query name)) w)
     /\ forall data w0 url written prepared,
          py_get data "url" = inr url ->
          truthy url = true ->
          ydl_run ext outtmpl url = (written, inr prepared) ->
          normalize_filename prepared ∈ disk w0 ∪ written ->
          get_gdrive_service ext (after_download url written w0) = (inr svc, w) ->
          video_to_drive ext data w0
          = (inr (jsonify_error 500 (exc_str e)),
             record (EvFilesList (folder_query "YouTubeSong")) w))
    /\ (list_fault ext = None ->
        plain_name name = true ->
        folders_named name (drive w) = [] ->
        folder_create_fault ext = Some e ->
        get_or_create_folder ext svc name w
        = (inl e, record (EvFolderCreate name) (record (EvFilesList (folder_query name)) w))).
Proof.
  intros ext svc name w e. split.
  - intros Hlist.
    assert (Hany : forall n, get_or_create_folder ext svc n w
                             = (inl e, record (EvFilesList (folder_query n)) w)).
    { intros n. unfold get_or_create_folder, files_list, bind, emit. rewrite Hlist.
      reflexivity. }
    split; [apply Hany|].
    intros data w0 url written prepared Hget Htruthy Htool Hin Hauth.
    rewrite (validated _ _ _ _ Hget Htruthy). unfold try_except.
    rewrite (try_body_present _ _ _ _ _ Htool Hin).
    rewrite (bind_raises _ _ _ e (record (EvFilesList (folder_query "YouTubeSong")) w));
      [reflexivity|].
    unfold upload_to_drive. rewrite (bind_returns _ _ _ _ _ Hauth).
    apply bind_raises. apply Hany.
  - intros Hlist Hplain Hnone Hcreate. unfold get_or_create_folder.
    rewrite (bind_returns _ _ _ _ _ (files_list_plain ext svc name w Hplain Hlist)), Hnone.
    unfold files_create_folder, bind, emit. rewrite Hcreate. reflexivity.
Qed.

Lemma folder_call_failures_witness :
  get_or_create_folder Scenario.listing_fails (mkService (Some Scenario.creds_fresh))
    Scenario.quoted_name Scenario.busy
  = (inl Scenario.http_503,
     record (EvFilesList (folder_query Scenario.quoted_name)) Scenario.busy)
  /\ get_or_create_folder Scenario.creation_fails (mkService (Some Scenario.creds_fresh))
       "Podcasts" Scenario.busy
     = (inl Scenario.http_403,
        record (EvFolderCreate "Podcasts")
          (record (EvFilesList (folder_query "Podcasts")) Scenario.busy)).
Proof.
  split.
  - exact (proj1 (proj1 (folder_call_failures Scenario.listing_fails
                           (mkService (Some Scenario.creds_fresh)) Scenario.quoted_name
                           Scenario.busy Scenario.http_503) eq_refl)).
  - exact (proj2 (folder_call_failures Scenario.creation_fails
                    (mkService (Some Scenario.creds_fresh)) "Podcasts"
                    Scenario.busy Scenario.http_403)
             eq_refl eq_refl ltac:(vm_compute; reflexivity) eq_refl).
Defined.

(** ** The upload *)

Section UploadDone.

Variable ext : Externals.

Lemma last_chunk_trace name parents w :
  trace (snd (last_chunk ext name parents w)) = (trace w ++ [EvNextChunk])%list.
Proof.
  unfold last_chunk, bind, emit, gets, modify, raise, ret.
  destruct (upload_fault ext); reflexivity.
Qed.

Lemma chunks_recorded_trace n w :
  trace (chunks_recorded n w) = (trace w ++ repeat EvNextChunk n)%list.
Proof.
  revert w. induction n as [|n IH]; intros w; simpl.
  - symmetry. apply app_nil_r.
  - rewrite IH. simpl. rewrite <- app_assoc. reflexivity.
Qed.

Lemma upload_to_drive_done filename w response w2 :
  upload_to_drive ext filename w = (inr response, w2) ->
  exists service wa folder_id wb,
    get_gdrive_service ext w = (inr service, wa)
    /\ get_or_create_folder ext service "YouTubeSong" wa = (inr folder_id, wb)
    /\ filename ∈ disk wb
    /\ upload_fault ext = None
    /\ permission_fault ext = None
    /\ response = mkUploadResponse (new_id ext (drive wb)) (webViewLink (new_id ext (drive wb)))
    /\ drive w2
       = map (fun f => if String.eqb (df_id f) (new_id ext (drive wb))
                       then made_public f else f)
             (drive wb ++ [remote_object ext filename folder_id wb]).
Proof.
  unfold upload_to_drive. intros Hrun. unfold bind at 1 in Hrun.
  destruct (get_gdrive_service ext w) as [[e|service] wa] eqn:Hauth; [discriminate|].
  unfold bind at 1 in Hrun.
  destruct (get_or_create_folder ext service "YouTubeSong" wa) as [[e|folder_id] wb] eqn:Hfolder;
    [discriminate|].
  exists service, wa, folder_id, wb. split; [reflexivity|]. split; [exact Hfolder|].
  destruct (decide (filename ∈ disk wb)) as [Hin|Hout].
  2:{ exfalso. unfold bind at 1 in Hrun. unfold MediaFileUpload, bind, emit, os_path_exists, gets
        in Hrun. simpl in Hrun. rewrite bool_decide_eq_false_2 in Hrun by exact Hout.
      discriminate. }
  split; [exact Hin|].
  destruct (upload_fault ext) as [e|] eqn:Hup.
  { exfalso. rewrite (bind_returns _ _ _ _ _ (MediaFileUpload_present _ _ Hin)) in Hrun.
    unfold bind at 1 in Hrun. rewrite next_chunks_run in Hrun.
    unfold last_chunk, bind, emit in Hrun. rewrite Hup in Hrun. discriminate. }
  split; [reflexivity|].
  pose proof (transfer_completes ext filename folder_id wb Hin Hup) as Htransfer.
  unfold bind in Htransfer, Hrun.
  destruct (MediaFileUpload filename wb) as [[e1|[]] w4]; [discriminate|].
  rewrite Htransfer in Hrun. simpl resp_id in Hrun.
  unfold permissions_create, emit, modify, raise, ret in Hrun.
  destruct (permission_fault ext) as [e|]; [discriminate|].
  injection Hrun as <- <-. split; [reflexivity|]. split; [reflexivity|].
  reflexivity.
Qed.

End UploadDone.

(** X10.  After a request answered 200 the account holds the uploaded
    object: its identifier and name are the [file_id] and [file_name] of
    the answer, it is a video that anyone can read, and its parent is a
    folder of the account named YouTubeSong that is not trashed. *)
Theorem success_leaves_public_object :
  forall ext data w resp w',
    video_to_drive ext data w = (inr resp, w') ->
    status resp = 200 ->
    exists object folder,
      object ∈ drive w' /\ folder ∈ drive w'
      /\ dict_lookup (body resp) "file_id" = Some (PyStr (df_id object))
      /\ dict_lookup (body resp) "file_name" = Some (PyStr (df_name object))
      /\ df_anyone_reader object = true
      /\ df_mimeType object = "video/mp4"
      /\ df_trashed object = false
      /\ df_parents object = [df_id folder]
      /\ df_name folder = "YouTubeSong"
      /\ df_mimeType folder = folder_mimeType
      /\ df_trashed folder = false.
Proof.
  intros ext data w resp w' Hrun H200.
  pose proof (video_to_drive_run _ _ _ _ _ Hrun) as HR.
  inversion HR as [ | | | | | | url written prepared response w2 w3 Hget Htruthy Htool Hin Hup Hclean ];
    subst; try discriminate H200.
  set (filename := normalize_filename prepared) in *.
  destruct (upload_to_drive_done ext filename _ _ _ Hup)
    as (service & wa & folder_id & wb & _ & Hfolder & _ & _ & _ & -> & Hdrive).
  destruct (folder_resolved_inv ext service "YouTubeSong" wa folder_id wb eq_refl Hfolder)
    as (f0 & Hf0 & Hid & Hname & Hmime & Hlive).
  pose proof (drive_cleanup _ _ _ _ Hclean) as Hsame. unfold same_drive in Hsame.
  set (g := fun f => if String.eqb (df_id f) (new_id ext (drive wb)) then made_public f else f)
    in Hdrive.
  exists (g (remote_object ext filename folder_id wb)), (g f0).
  assert (Hmem : forall f, f ∈ (drive wb ++ [remote_object ext filename folder_id wb])%list ->
                           g f ∈ drive w').
  { intros f Hf. rewrite Hsame, Hdrive. apply list_elem_of_In, in_map, list_elem_of_In. exact Hf. }
  split; [apply Hmem, elem_of_app; right; apply list_elem_of_singleton; reflexivity|].
  split; [apply Hmem, elem_of_app; left; exact Hf0|].
  assert (Hobj : g (remote_object ext filename folder_id wb)
                 = made_public (remote_object ext filename folder_id wb)).
  { unfold g. simpl df_id. rewrite String.eqb_refl. reflexivity. }
  assert (Hcore : df_core (g f0) = df_core f0).
  { unfold g. destruct (String.eqb (df_id f0) _); reflexivity. }
  injection Hcore as Hgid Hgname Hgmime Hgtrash _.
  rewrite Hobj, Hgid, Hgname, Hgmime, Hgtrash, Hid, Hname, Hmime, Hlive.
  repeat split; reflexivity.
Qed.

Lemma success_leaves_public_object_witness :
  exists object folder,
    object ∈ drive (snd (video_to_drive Scenario.healthy Scenario.request Scenario.busy))
    /\ folder ∈ drive (snd (video_to_drive Scenario.healthy Scenario.request Scenario.busy))
    /\ dict_lookup
         (body (jsonify_success Scenario.song_path
                  (mkUploadResponse "ffff" (webViewLink "ffff")))) "file_id"
       = Some (PyStr (df_id object))
    /\ dict_lookup
         (body (jsonify_success Scenario.song_path
                  (mkUploadResponse "ffff" (webViewLink "ffff")))) "file_name"
       = Some (PyStr (df_name object))
    /\ df_anyone_reader object = true
    /\ df_mimeType object = "video/mp4"
    /\ df_trashed object = false
    /\ df_parents object = [df_id folder]
    /\ df_name folder = "YouTubeSong"
    /\ df_mimeType folder = folder_mimeType
    /\ df_trashed folder = false.
Proof.
  assert (Hrun : video_to_drive Scenario.healthy Scenario.request Scenario.busy
                 = (inr (jsonify_success Scenario.song_path
                           (mkUploadResponse "ffff" (webViewLink "ffff"))),
                    snd (video_to_drive Scenario.healthy Scenario.request Scenario.busy)))
    by (vm_compute; reflexivity).
  exact (success_leaves_public_object _ _ _ _ _ Hrun eq_refl).
Defined.

(** X11.  The transfer loop of lines 113-117 asks for chunks until an
    answer carries the response: with [n] answers that only report
    progress it makes exactly [n + 1] requests.  If the last one is
    refused its exception is raised and the account is as before;
    otherwise the account gains exactly one object, with the given name
    and parents, whose identifier is the one returned. *)
Theorem chunk_loop :
  forall ext n name parents w,
    trace (snd (next_chunks ext n name parents w))
    = (trace w ++ repeat EvNextChunk (S n))%list
    /\ match upload_fault ext with
       | Some e =>
           fst (next_chunks ext n name parents w) = inl e
           /\ drive (snd (next_chunks ext n name parents w)) = drive w
       | None =>
           fst (next_chunks ext n name parents w)
           = inr (mkUploadResponse (new_id ext (drive w)) (webViewLink (new_id ext (drive w))))
           /\ drive (snd (next_chunks ext n name parents w))
              = (drive w
                 ++ [mkDriveFile (new_id ext (drive w)) name "video/mp4" false parents false])%list
       end.
Proof.
  intros ext n name parents w. rewrite next_chunks_run. split.
  - rewrite last_chunk_trace, chunks_recorded_trace, <- app_assoc.
    f_equal. change (repeat EvNextChunk n ++ [EvNextChunk])%list
      with (repeat EvNextChunk n ++ repeat EvNextChunk 1)%list.
    rewrite <- repeat_app. f_equal. lia.
  - unfold last_chunk, bind, emit, gets, modify, raise, ret.
    destruct (upload_fault ext); simpl; rewrite chunks_recorded_drive; split; reflexivity.
Qed.

(** ** The credential store, whatever the cache holds *)

Section CacheFacts.

Variable ext : Externals.

Lemma run_flow_eval secret w :
  run_flow ext secret w
  = match json_loads ext secret with
    | inl e => (inl e, w)
    | inr creds_dict =>
        match from_client_config ext creds_dict SCOPES with
        | inl e => (inl e, w)
        | inr flow => (run_local_server ext flow, record EvRunLocalServer w)
        end
    end.
Proof.
  unfold run_flow, bind, lift, emit.
  destruct (json_loads ext secret) as [e|creds_dict]; [reflexivity|].
  destruct (from_client_config ext creds_dict SCOPES) as [e|flow]; reflexivity.
Qed.

Lemma acquire_cases w r w' :
  acquire ext w = (r, w') ->
  (str_truthy (GOOGLE_CREDENTIALS w) = false
   /\ r = inl missing_credentials /\ w' = record EvGetenv w)
  \/ (exists secret,
        GOOGLE_CREDENTIALS w = Some secret /\ secret <> EmptyString
        /\ run_flow ext secret (record EvGetenv w) = (r, w')).
Proof.
  unfold acquire, os_getenv_GOOGLE_CREDENTIALS. unfold bind at 1. unfold bind at 1.
  unfold emit at 1, gets at 1.
  change (GOOGLE_CREDENTIALS (record EvGetenv w)) with (GOOGLE_CREDENTIALS w).
  destruct (GOOGLE_CREDENTIALS w) as [secret|] eqn:Henv; unfold str_truthy, raise.
  - destruct (String.eqb_spec secret EmptyString) as [->|Hne]; simpl negb; cbv iota.
    + intros [= <- <-]. left. auto.
    + intros Hrun. right. exists secret. auto.
  - simpl negb. cbv iota. intros [= <- <-]. left. auto.
Qed.

Lemma store_cases w r w' :
  get_gdrive_service ext w = (r, w') ->
  (cached_valid (token_pickle w) = true /\ r = inr (mkService (token_pickle w)) /\ w' = w)
  \/ (cached_valid (token_pickle w) = false
      /\ exists rc w1,
          (match token_pickle w with
           | Some c =>
               if expired c && str_truthy (refresh_token c)
               then refresh ext c w = (rc, w1)
               else acquire ext w = (rc, w1)
           | None => acquire ext w = (rc, w1)
           end)
          /\ match rc with
             | inl e => r = inl e /\ w' = w1
             | inr c' =>
                 r = inr (mkService (Some c'))
                 /\ w' = set_token_pickle (Some c') (record EvTokenDump w1)
             end).
Proof.
  unfold get_gdrive_service, bind at 1, gets at 1.
  destruct (cached_valid (token_pickle w)) eqn:Hv; simpl.
  - intros [= <- <-]. left. auto.
  - intros Hrun. right. split; [reflexivity|]. unfold bind at 1 in Hrun.
    destruct (token_pickle w) as [c|].
    + destruct (expired c && str_truthy (refresh_token c)).
      * destruct (refresh ext c w) as [rc w1]. exists rc, w1. split; [reflexivity|].
        destruct rc as [e|c']; injection Hrun as <- <-; split; reflexivity.
      * destruct (acquire ext w) as [rc w1]. exists rc, w1. split; [reflexivity|].
        destruct rc as [e|c']; injection Hrun as <- <-; split; reflexivity.
    + destruct (acquire ext w) as [rc w1]. exists rc, w1. split; [reflexivity|].
      destruct rc as [e|c']; injection Hrun as <- <-; split; reflexivity.
Qed.

Lemma refresh_world c w r w' : refresh ext c w = (r, w') -> w' = record EvRefresh w.
Proof. unfold refresh, bind, emit, lift. intros [= _ <-]. reflexivity. Qed.

Lemma acquire_world w r w' :
  acquire ext w = (r, w') ->
  token_pickle w' = token_pickle w
  /\ GOOGLE_CREDENTIALS w' = GOOGLE_CREDENTIALS w
  /\ exists others, trace w' = (trace w ++ EvGetenv :: others)%list.
Proof.
  intros [(_ & _ & ->) | (secret & _ & _ & Hflow)]%acquire_cases.
  - split; [reflexivity|]. split; [reflexivity|]. exists []. reflexivity.
  - rewrite run_flow_eval in Hflow.
    destruct (json_loads ext secret) as [e|creds_dict];
      [|destruct (from_client_config ext creds_dict SCOPES) as [e|flow]];
      injection Hflow as _ <-; (split; [reflexivity|]); (split; [reflexivity|]);
      eexists; simpl; try rewrite <- app_assoc; reflexivity.
Qed.

End CacheFacts.

(** X12.  The service returned by the credential store is always built on
    what token.pickle holds when the store returns, and that is a
    credential; a store that raises has left token.pickle as it was.  The
    process environment is only read. *)
Theorem token_cache_follows_service :
  forall ext w r w',
    get_gdrive_service ext w = (r, w') ->
    match r with
    | inr service =>
        svc_credentials service = token_pickle w' /\ token_pickle w' <> None
    | inl e => token_pickle w' = token_pickle w
    end
    /\ GOOGLE_CREDENTIALS w' = GOOGLE_CREDENTIALS w.
Proof.
  intros ext w r w' Hrun.
  destruct (store_cases ext _ _ _ Hrun) as [(Hv & -> & ->) | (Hv & rc & w1 & Hstep & Hend)].
  - split; [|reflexivity]. split; [reflexivity|].
    destruct (token_pickle w); [discriminate | discriminate Hv].
  - assert (Hw1 : token_pickle w1 = token_pickle w
                  /\ GOOGLE_CREDENTIALS w1 = GOOGLE_CREDENTIALS w).
    { set (cached := token_pickle w) in Hstep. clearbody cached.
      destruct cached as [c|];
        [destruct (expired c && str_truthy (refresh_token c))|].
      - rewrite (refresh_world ext _ _ _ _ Hstep). split; reflexivity.
      - destruct (acquire_world ext _ _ _ Hstep) as (H1 & H2 & _). split; assumption.
      - destruct (acquire_world ext _ _ _ Hstep) as (H1 & H2 & _). split; assumption. }
    destruct Hw1 as [Htok Henv].
    destruct rc as [e|c']; destruct Hend as [-> ->]; simpl.
    + split; [exact Htok | exact Henv].
    + split; [split; [reflexivity | discriminate] | exact Henv].
Qed.

Lemma token_cache_follows_service_witness :
  token_pickle (snd (get_gdrive_service Scenario.consent_refused Scenario.blank))
  = token_pickle Scenario.blank
  /\ svc_credentials (mkService (Some Scenario.creds_fresh))
     = token_pickle (snd (get_gdrive_service Scenario.healthy Scenario.blank)).
Proof.
  split.
  - assert (Hrun : get_gdrive_service Scenario.consent_refused Scenario.blank
                   = (inl Scenario.access_denied,
                      snd (get_gdrive_service Scenario.consent_refused Scenario.blank)))
      by (vm_compute; reflexivity).
    exact (proj1 (token_cache_follows_service _ _ _ _ Hrun)).
  - assert (Hrun : get_gdrive_service Scenario.healthy Scenario.blank
                   = (inr (mkService (Some Scenario.creds_fresh)),
                      snd (get_gdrive_service Scenario.healthy Scenario.blank)))
      by (vm_compute; reflexivity).
    exact (proj1 (proj1 (token_cache_follows_service _ _ _ _ Hrun))).
Defined.

(** X13.  The credential store leaves the process exactly when the cache
    holds no valid credential.  With a valid one it returns the service
    built on it and changes nothing: no refresh, no read of the
    environment, no write of token.pickle.  Otherwise its first outside
    call is the refresh or the read of [GOOGLE_CREDENTIALS]. *)
Theorem valid_cache_is_reused :
  forall ext w,
    (cached_valid (token_pickle w) = true ->
     get_gdrive_service ext w = (inr (mkService (token_pickle w)), w))
    /\ (cached_valid (token_pickle w) = false ->
        exists first others,
          trace (snd (get_gdrive_service ext w)) = (trace w ++ first :: others)%list
          /\ (first = EvRefresh /\ refreshable (token_pickle w) = true
              \/ first = EvGetenv /\ refreshable (token_pickle w) = false)).
Proof.
  intros ext w.
  destruct (get_gdrive_service ext w) as [r w'] eqn:Hrun.
  destruct (store_cases ext _ _ _ Hrun) as [(Hv & -> & ->) | (Hv & rc & w1 & Hstep & Hend)].
  - split; [reflexivity|]. rewrite Hv. discriminate.
  - split; [rewrite Hv; discriminate|]. intros _. simpl snd.
    assert (Hw' : exists tail, trace w' = (trace w1 ++ tail)%list).
    { destruct rc as [e|c']; destruct Hend as [_ ->].
      - exists []. symmetry. apply app_nil_r.
      - exists [EvTokenDump]. reflexivity. }
    destruct Hw' as [tail Htail].
    assert (Hfirst : forall first l, trace w1 = (trace w ++ first :: l)%list ->
                       trace w' = (trace w ++ first :: (l ++ tail))%list).
    { intros first l Hl. rewrite Htail, Hl, <- app_assoc. reflexivity. }
    unfold refreshable. destruct (token_pickle w) as [c|];
      [destruct (expired c && str_truthy (refresh_token c))|].
    + exists EvRefresh, ([] ++ tail)%list. split; [|left; split; reflexivity].
      apply Hfirst. rewrite (refresh_world ext _ _ _ _ Hstep). reflexivity.
    + destruct (acquire_world ext _ _ _ Hstep) as (_ & _ & l & Hl).
      exists EvGetenv, (l ++ tail)%list. split; [exact (Hfirst _ _ Hl) | right; split; reflexivity].
    + destruct (acquire_world ext _ _ _ Hstep) as (_ & _ & l & Hl).
      exists EvGetenv, (l ++ tail)%list. split; [exact (Hfirst _ _ Hl) | right; split; reflexivity].
Qed.

Lemma valid_cache_is_reused_witness :
  get_gdrive_service Scenario.refresh_rejected Scenario.warm
  = (inr (mkService (Some Scenario.creds_fresh)), Scenario.warm).
Proof.
  exact (proj1 (valid_cache_is_reused Scenario.refresh_rejected Scenario.warm) eq_refl).
Defined.

(** X14.  A cache that holds nothing, or a credential that is neither valid
    nor refreshable (expired without refresh token, or without access token
    and not expired), leads to lines 39-47 when [GOOGLE_CREDENTIALS] is set
    and not empty.  A value that [json.loads] or [from_client_config]
    refuses is raised before any authorization flow is started.  Otherwise
    the flow runs: on success the new credential replaces the contents of
    token.pickle and the service is built on it; a failure of the flow is
    raised and token.pickle is not written.  An empty [GOOGLE_CREDENTIALS]
    is treated like a missing one. *)
Theorem acquisition_by_flow :
  forall ext w secret,
    cached_valid (token_pickle w) = false ->
    refreshable (token_pickle w) = false ->
    GOOGLE_CREDENTIALS w = Some secret ->
    (secret <> EmptyString ->
     match json_loads ext secret with
     | inl e => get_gdrive_service ext w = (inl e, record EvGetenv w)
     | inr creds_dict =>
         match from_client_config ext creds_dict SCOPES with
         | inl e => get_gdrive_service ext w = (inl e, record EvGetenv w)
         | inr flow =>
             match run_local_server ext flow with
             | inr c =>
                 get_gdrive_service ext w
                 = (inr (mkService (Some c)),
                    set_token_pickle (Some c)
                      (record EvTokenDump (record EvRunLocalServer (record EvGetenv w))))
             | inl e =>
                 get_gdrive_service ext w
                 = (inl e, record EvRunLocalServer (record EvGetenv w))
             end
         end
     end)
    /\ (secret = EmptyString ->
        get_gdrive_service ext w = (inl missing_credentials, record EvGetenv w)).
Proof.
  intros ext w secret Hv Hr Henv. split.
  - intros Hne.
    assert (Hacq : acquire ext w = run_flow ext secret (record EvGetenv w)).
    { unfold acquire, os_getenv_GOOGLE_CREDENTIALS. unfold bind at 1. unfold bind at 1.
      unfold emit at 1, gets at 1.
      change (GOOGLE_CREDENTIALS (record EvGetenv w)) with (GOOGLE_CREDENTIALS w).
      rewrite Henv. unfold str_truthy. apply String.eqb_neq in Hne. rewrite Hne.
      reflexivity. }
    assert (Hstore : get_gdrive_service ext w
                     = match run_flow ext secret (record EvGetenv w) with
                       | (inr c, w1) =>
                           (inr (mkService (Some c)),
                            set_token_pickle (Some c) (record EvTokenDump w1))
                       | (inl e, w1) => (inl e, w1)
                       end).
    { unfold get_gdrive_service, bind, gets.
      destruct (token_pickle w) as [c|]; simpl in Hv, Hr |- *; rewrite ?Hv, ?Hr; simpl;
        rewrite Hacq;
        destruct (run_flow ext secret (record EvGetenv w)) as [[e|c'] w1]; reflexivity. }
    rewrite Hstore, run_flow_eval.
    destruct (json_loads ext secret) as [e|creds_dict]; [reflexivity|].
    destruct (from_client_config ext creds_dict SCOPES) as [e|flow]; [reflexivity|].
    destruct (run_local_server ext flow); reflexivity.
  - intros ->. apply no_credential_no_secret; [exact Hv | exact Hr |].
    rewrite Henv. reflexivity.
Qed.

Lemma acquisition_by_flow_witness :
  get_gdrive_service Scenario.healthy Scenario.blank
  = (inr (mkService (Some Scenario.creds_fresh)),
     set_token_pickle (Some Scenario.creds_fresh)
       (record EvTokenDump (record EvRunLocalServer (record EvGetenv Scenario.blank))))
  /\ get_gdrive_service Scenario.consent_refused Scenario.blank
     = (inl Scenario.access_denied,
        record EvRunLocalServer (record EvGetenv Scenario.blank))
  /\ get_gdrive_service Scenario.healthy Scenario.misconfigured
     = (inl Scenario.not_a_client_config, record EvGetenv Scenario.misconfigured)
  /\ get_gdrive_service Scenario.healthy Scenario.garbled
     = (inl Scenario.not_json, record EvGetenv Scenario.garbled).
Proof.
  split; [|split; [|split]].
  - refine (proj1 (acquisition_by_flow Scenario.healthy Scenario.blank Scenario.client_config
                     eq_refl eq_refl eq_refl) _).
    discriminate.
  - refine (proj1 (acquisition_by_flow Scenario.consent_refused Scenario.blank
                     Scenario.client_config eq_refl eq_refl eq_refl) _).
    discriminate.
  - refine (proj1 (acquisition_by_flow Scenario.healthy Scenario.misconfigured "{}"
                     eq_refl eq_refl eq_refl) _).
    discriminate.
  - refine (proj1 (acquisition_by_flow Scenario.healthy Scenario.garbled "not json"
                     eq_refl eq_refl eq_refl) _).
    discriminate.
Defined.

(** ** Extension normalization as a function on names *)

(** X15.  Lines 90-91 are idempotent and change nothing but the part after
    the last dot: normalizing twice is normalizing once, the part before
    the last dot (the whole name when it has no dot) is kept, and a name is
    left as it is exactly when it already ends in [.mp4]. *)
Theorem normalize_filename_idempotent :
  forall filename : string,
    normalize_filename (normalize_filename filename) = normalize_filename filename
    /\ PyString.rsplit1_head "." (normalize_filename filename)
       = PyString.rsplit1_head "." filename
    /\ (normalize_filename filename = filename <-> PyString.endswith filename ".mp4" = true).
Proof.
  intros filename.
  assert (Hend : PyString.endswith (normalize_filename filename) ".mp4" = true).
  { unfold normalize_filename.
    destruct (PyString.endswith filename ".mp4") eqn:E; simpl; [exact E|].
    apply endswith_append. }
  split; [|split].
  - unfold normalize_filename at 1. rewrite Hend. reflexivity.
  - unfold normalize_filename.
    destruct (PyString.endswith filename ".mp4"); [reflexivity|]. simpl negb. cbv iota.
    unfold PyString.rsplit1_head at 1.
    change (PyString.rsplit1_head "." filename +:+ ".mp4")
      with (PyString.rsplit1_head "." filename +:+ String "." "mp4").
    rewrite rsplit1_append by reflexivity. reflexivity.
  - split.
    + intros Hsame. rewrite <- Hsame. exact Hend.
    + intros Hmp4. unfold normalize_filename. rewrite Hmp4. reflexivity.
Qed.
